(** * App Mesh virtual node builders: a shallow embedding

    Source files embedded here:
    - [packages/@aws-cdk/aws-appmesh/lib/virtual-node.ts]
      ([TLSClientValidation], [FileTrust], [ACMTrust], [VirtualNodeBase],
      [renderHealthCheck], [VirtualNode.addBackendDefaults]);
    - the client-policy file ([ClientPolicy], [ClientPolicyImpl]).

    A virtual node is an object with three arrays that are mutated in place.
    The embedding threads the node through a small state-and-exception monad:
    a JavaScript [throw] ends the computation and hands back the node exactly
    as it is at that moment, so that what an aborted call leaves behind is a
    matter of proof and not of the encoding.

    Conventions:
    - an optional property is an [option], [undefined] is [None];
    - a [number] is a [Z] (thresholds, ports and milliseconds are whole
      numbers), a [string] is a [string], an array is a [list];
    - [||], [&&] and [??] keep their JavaScript meaning, see [Truthy];
    - [validateHealthChecks], which virtual-node.ts imports from
      [./private/utils], is a parameter of everything that calls it;
    - [cdk.Duration], which comes from [@aws-cdk/core], is a parameter too:
      a type with the two operations that [renderHealthCheck] uses, of which
      [toMilliseconds] may throw. *)

From Stdlib Require Import ZArith Lia.
From stdpp Require Import base option list strings pretty gmap.

Local Open Scope Z_scope.

(** ** JavaScript values *)

(** [new Error(message)]. *)
Inductive Error : Type := mkError (message : string).

Global Instance Error_eq_dec : EqDecision Error.
Proof. solve_decision. Defined.

(** How a JavaScript call ends: it returns a value or it throws. *)
Inductive Completion (A : Type) : Type :=
  | Normal (a : A)
  | Throw (e : Error).
Arguments Normal {A} a.
Arguments Throw {A} e.

Definition throws {A} (c : Completion A) : bool :=
  match c with Throw _ => true | Normal _ => false end.

(** Sequencing: what comes after a [throw] does not run. *)
Global Instance Completion_ret : MRet Completion := fun A a => Normal a.

Global Instance Completion_bind : MBind Completion := fun A B k c =>
  match c with
  | Normal a => k a
  | Throw e => Throw e
  end.

(** Truthiness, as [||] and [&&] test it.  A number is falsy when it is [0],
    a string when it is empty; objects and the members of a string enum are
    always truthy. *)
Class Truthy (A : Type) := truthy : A → bool.

Global Instance Z_truthy : Truthy Z := fun n => negb (n =? 0).
Global Instance string_truthy : Truthy string :=
  fun s => match s with EmptyString => false | String _ _ => true end.

(** Truthiness of an optional property: [undefined] is falsy. *)
Definition truthy_opt {A} `{Truthy A} (x : option A) : bool :=
  match x with Some v => truthy v | None => false end.

(** [x || d] where [d] is always defined. *)
Definition or_else {A} `{Truthy A} (x : option A) (d : A) : A :=
  match x with
  | Some v => if truthy v then v else d
  | None => d
  end.

(** [x || y] where [y] may itself be [undefined]. *)
Definition or_undef {A} `{Truthy A} (x y : option A) : option A :=
  match x with
  | Some v => if truthy v then Some v else y
  | None => y
  end.

(** [x ?? d]: only [undefined] is replaced. *)
Definition nullish {A} (x : option A) (d : A) : A :=
  match x with Some v => v | None => d end.

(** ** Types imported by virtual-node.ts *)

(** The [Protocol] enum of [shared-interfaces].  virtual-node.ts names the
    members [HTTP], [TCP] and [GRPC]; the members are strings, hence truthy. *)
Inductive Protocol : Type := HTTP | TCP | HTTP2 | GRPC.

Global Instance Protocol_eq_dec : EqDecision Protocol.
Proof. solve_decision. Defined.

Global Instance Protocol_truthy : Truthy Protocol := fun _ => true.

(** [cdk.Duration], as far as [renderHealthCheck] uses it.  The class is not
    among the embedded files, so a duration is a value of any type that
    comes with these two operations:
    - [Duration_seconds n] is [cdk.Duration.seconds(n)] for a whole number
      [n];
    - [Duration_toMilliseconds d] is [d.toMilliseconds()], which returns a
      number of milliseconds or throws (it throws, for one, when a duration
      given in seconds is not a whole number of milliseconds).
    Nothing is assumed of the two; where a statement needs
    [Duration.seconds(5)] to be 5000 milliseconds, it says so. *)
Class CdkDuration (Duration : Type) : Type := {
  Duration_seconds : N → Duration;
  Duration_toMilliseconds : Duration → Completion Z;
}.

Module PortMapping.
Record t : Type := mk { port : Z; protocol : Protocol }.
End PortMapping.

Global Instance PortMapping_truthy : Truthy PortMapping.t := fun _ => true.

(** The user-facing [HealthCheck] options: every property is optional. *)
Module HealthCheck.
Record t (Duration : Type) : Type := mk {
  healthyThreshold : option Z;
  interval : option Duration;
  path : option string;
  port : option Z;
  protocol : option Protocol;
  timeout : option Duration;
  unhealthyThreshold : option Z;
}.
Arguments mk {Duration}.
Arguments healthyThreshold {Duration}.
Arguments interval {Duration}.
Arguments path {Duration}.
Arguments port {Duration}.
Arguments protocol {Duration}.
Arguments timeout {Duration}.
Arguments unhealthyThreshold {Duration}.

(** [{}]: a health check with no property set. *)
Definition empty {Duration : Type} : t Duration :=
  mk None None None None None None None.
End HealthCheck.

Module VirtualNodeListener.
Record t (Duration : Type) : Type := mk {
  portMapping : option PortMapping.t;
  healthCheck : option (HealthCheck.t Duration);
}.
Arguments mk {Duration}.
Arguments portMapping {Duration}.
Arguments healthCheck {Duration}.
End VirtualNodeListener.

(** [IVirtualService], of which [addBackends] reads one property. *)
Module IVirtualService.
Record t : Type := mk { virtualServiceName : string }.
End IVirtualService.

(** ** The generated [CfnVirtualNode] property records *)

Module CfnVirtualNode.
Record HealthCheckProperty : Type := mkHealthCheck {
  healthyThreshold : Z;
  intervalMillis : Z;
  path : option string;
  port : Z;
  protocol : Protocol;
  timeoutMillis : Z;
  unhealthyThreshold : Z;
}.

Record ListenerProperty : Type := mkListener {
  portMapping : PortMapping.t;
  healthCheck : option HealthCheckProperty;
}.

Record VirtualServiceBackendProperty : Type := mkVirtualServiceBackend {
  virtualServiceName : string;
}.

Record BackendProperty : Type := mkBackend {
  virtualService : VirtualServiceBackendProperty;
}.

Record TlsValidationContextFileTrustProperty : Type := mkFileTrust {
  certificateChain : string;
}.

Record TlsValidationContextAcmTrustProperty : Type := mkAcmTrust {
  certificateAuthorityArns : list string;
}.

(** An object literal with the key [file] or the key [acm]; a key that the
    literal does not write is absent. *)
Record TlsValidationContextTrustProperty : Type := mkTrust {
  acm : option TlsValidationContextAcmTrustProperty;
  file : option TlsValidationContextFileTrustProperty;
}.

Record TlsValidationContextProperty : Type := mkTlsValidationContext {
  trust : TlsValidationContextTrustProperty;
}.

Record ClientPolicyTlsProperty : Type := mkClientPolicyTls {
  enforce : bool;
  validation : TlsValidationContextProperty;
  ports : option (list Z);
}.

Record ClientPolicyProperty : Type := mkClientPolicy {
  tls : ClientPolicyTlsProperty;
}.

Record BackendDefaultsProperty : Type := mkBackendDefaults {
  clientPolicy : ClientPolicyProperty;
}.
End CfnVirtualNode.

(** ** Trust policies of virtual-node.ts *)

Module ACMTrustOptions.
Record t : Type := mk { certificateAuthorityArns : list string }.
End ACMTrustOptions.

Module FileTrustOptions.
Record t : Type := mk { certificateChain : string }.
End FileTrustOptions.

Module TLSValidationConfig.
Record t : Type := mk { tlsValidation : CfnVirtualNode.TlsValidationContextProperty }.
End TLSValidationConfig.

(** The abstract class [TLSClientValidation] with its two subclasses, the
    only ones in the file; each constructor stores the one field that the
    subclass's constructor copies from its options.  The class is exported,
    so a caller can write a third subclass with a [bind] of its own; what is
    proved below about a [TLSClientValidation] is proved about the values of
    the two factories [fileTrust] and [acmTrust]. *)
Module TLSClientValidation.
Inductive t : Type :=
  | FileTrust (certificateChain : string)
  | ACMTrust (certificateAuthorityArns : list string).

Definition fileTrust (props : FileTrustOptions.t) : t :=
  FileTrust (FileTrustOptions.certificateChain props).

Definition acmTrust (props : ACMTrustOptions.t) : t :=
  ACMTrust (ACMTrustOptions.certificateAuthorityArns props).

(** [bind(_scope)]: neither subclass looks at the scope. *)
Definition bind {Scope : Type} (this : t) (_scope : Scope) : TLSValidationConfig.t :=
  match this with
  | FileTrust certificateChain =>
      TLSValidationConfig.mk
        (CfnVirtualNode.mkTlsValidationContext
           (CfnVirtualNode.mkTrust None
              (Some (CfnVirtualNode.mkFileTrust certificateChain))))
  | ACMTrust certificateAuthorityArns =>
      TLSValidationConfig.mk
        (CfnVirtualNode.mkTlsValidationContext
           (CfnVirtualNode.mkTrust
              (Some (CfnVirtualNode.mkAcmTrust certificateAuthorityArns))
              None))
  end.
End TLSClientValidation.

Module TLSClientPolicyOptions.
Record t : Type := mk {
  enforce : option bool;
  ports : option (list Z);
  validation : TLSClientValidation.t;
}.
End TLSClientPolicyOptions.

Module BackendDefaults.
Record t : Type := mk { tlsClientPolicy : TLSClientPolicyOptions.t }.
End BackendDefaults.

(** [VirtualNodeProps], cut down to the properties that reach the three
    arrays of a node. *)
Module VirtualNodeProps.
Record t (Duration : Type) : Type := mk {
  backends : option (list IVirtualService.t);
  listener : option (VirtualNodeListener.t Duration);
  backendDefaults : option BackendDefaults.t;
}.
Arguments mk {Duration}.
Arguments backends {Duration}.
Arguments listener {Duration}.
Arguments backendDefaults {Duration}.
End VirtualNodeProps.

(** Arrays are objects. *)
Global Instance list_truthy {A} : Truthy (list A) := fun _ => true.

(** ** The virtual node and the monad of its methods *)

(** The three arrays of a node: [backends] and [listeners] are fields of
    [VirtualNodeBase], [backendDefaults] is a field of [VirtualNode]. *)
Module VirtualNode.
Record t : Type := mk {
  backends : list CfnVirtualNode.BackendProperty;
  listeners : list CfnVirtualNode.ListenerProperty;
  backendDefaults : list CfnVirtualNode.BackendDefaultsProperty;
}.

(** The field initialisers: three times [new Array()]. *)
Definition new : t := mk [] [] [].
End VirtualNode.

(** A method body: from the node before to how the call ends and the node
    after. *)
Definition M (A : Type) : Type := VirtualNode.t → Completion A * VirtualNode.t.

Global Instance M_ret : MRet M := fun A a this => (Normal a, this).

Global Instance M_bind : MBind M := fun A B k m this =>
  match m this with
  | (Normal a, this') => k a this'
  | (Throw e, this') => (Throw e, this')
  end.

(** [throw e] *)
Definition throw {A} (e : Error) : M A := fun this => (Throw e, this).

(** Reading [this]. *)
Definition getThis : M VirtualNode.t := fun this => (Normal this, this).

(** A call of a function that does not touch the node. *)
Definition liftC {A} (c : Completion A) : M A := fun this => (c, this).

(** [this.backends.push(x)], [this.listeners.push(x)] and
    [this.backendDefaults.push(x)]. *)
Definition push_backends (x : CfnVirtualNode.BackendProperty) : M unit :=
  fun this =>
    (Normal (),
     VirtualNode.mk (VirtualNode.backends this ++ [x])
       (VirtualNode.listeners this) (VirtualNode.backendDefaults this)).

Definition push_listeners (x : CfnVirtualNode.ListenerProperty) : M unit :=
  fun this =>
    (Normal (),
     VirtualNode.mk (VirtualNode.backends this)
       (VirtualNode.listeners this ++ [x]) (VirtualNode.backendDefaults this)).

Definition push_backendDefaults (x : CfnVirtualNode.BackendDefaultsProperty) : M unit :=
  fun this =>
    (Normal (),
     VirtualNode.mk (VirtualNode.backends this)
       (VirtualNode.listeners this) (VirtualNode.backendDefaults this ++ [x])).

(** [for (const x of xs) { body }] *)
Fixpoint forOf {A} (xs : list A) (body : A → M unit) : M unit :=
  match xs with
  | [] => mret ()
  | x :: rest => body x ≫= fun _ => forOf rest body
  end.

(** ** virtual-node.ts: [VirtualNodeBase] and [VirtualNode] *)

Section VirtualNodeTs.

Context {Duration : Type} `{!CdkDuration Duration}.

(** A [Duration] is an object. *)
Local Instance Duration_truthy : Truthy Duration := fun _ => true.

(** [validateHealthChecks] is imported from [./private/utils]; its body is
    not part of the embedded files.  [renderHealthCheck] calls it on the
    record it has built and drops what it returns, so all it can do is throw.
    Every definition below that calls it takes it as a parameter. *)
Variable validateHealthChecks : CfnVirtualNode.HealthCheckProperty → Completion unit.

Definition addBackends (props : list IVirtualService.t) : M unit :=
  forOf props (fun s =>
    push_backends
      (CfnVirtualNode.mkBackend
         (CfnVirtualNode.mkVirtualServiceBackend (IVirtualService.virtualServiceName s)))).

(** The object literal that [renderHealthCheck] binds to its local constant
    [healthCheck]; [protocol] is the local constant declared just before it.
    The properties of the literal are evaluated in the order in which they
    are written, so the interval is converted before the timeout, and a
    conversion that throws leaves no record. *)
Definition renderHealthCheck_healthCheck (hc : HealthCheck.t Duration) (pm : PortMapping.t)
  : Completion CfnVirtualNode.HealthCheckProperty :=
  let protocol := nullish (HealthCheck.protocol hc) (PortMapping.protocol pm) in
  intervalMillis ←
    Duration_toMilliseconds (or_else (HealthCheck.interval hc) (Duration_seconds 5));
  timeoutMillis ←
    Duration_toMilliseconds (or_else (HealthCheck.timeout hc) (Duration_seconds 2));
  mret {|
    CfnVirtualNode.healthyThreshold := or_else (HealthCheck.healthyThreshold hc) 2;
    CfnVirtualNode.intervalMillis := intervalMillis;
    CfnVirtualNode.path :=
      or_undef (HealthCheck.path hc)
        (if bool_decide (protocol = HTTP) then Some "/"%string else None);
    CfnVirtualNode.port := or_else (HealthCheck.port hc) (PortMapping.port pm);
    CfnVirtualNode.protocol := or_else (HealthCheck.protocol hc) (PortMapping.protocol pm);
    CfnVirtualNode.timeoutMillis := timeoutMillis;
    CfnVirtualNode.unhealthyThreshold := or_else (HealthCheck.unhealthyThreshold hc) 2;
  |}.

Definition renderHealthCheck (hc : option (HealthCheck.t Duration)) (pm : PortMapping.t)
  : Completion (option CfnVirtualNode.HealthCheckProperty) :=
  match hc with
  | None => Normal None
  | Some hc =>
    if bool_decide (HealthCheck.protocol hc = Some TCP) && truthy_opt (HealthCheck.path hc)
    then Throw (mkError "The path property cannot be set with Protocol.TCP")
    else
    if bool_decide (HealthCheck.protocol hc = Some GRPC) && truthy_opt (HealthCheck.path hc)
    then Throw (mkError "The path property cannot be set with Protocol.GRPC")
    else
    healthCheck ← renderHealthCheck_healthCheck hc pm;
    _ ← validateHealthChecks healthCheck;
    mret (Some healthCheck)
  end.

(** The body of the loop of [addListeners].  The argument of [push] is
    evaluated before [push] runs. *)
Definition addListeners_body (listener : VirtualNodeListener.t Duration) : M unit :=
  let portMapping :=
    or_else (VirtualNodeListener.portMapping listener) (PortMapping.mk 8080 HTTP) in
  healthCheck ← liftC (renderHealthCheck (VirtualNodeListener.healthCheck listener) portMapping);
  push_listeners (CfnVirtualNode.mkListener portMapping healthCheck).

Definition addListeners (listeners : list (VirtualNodeListener.t Duration)) : M unit :=
  this ← getThis;
  if bool_decide (1 < length (VirtualNode.listeners this) + length listeners)%nat
  then throw (mkError "VirtualNode may have at most one listener")
  else forOf listeners addListeners_body.

Definition addBackendDefaults (backendDefaults : BackendDefaults.t) : M unit :=
  this ← getThis;
  if bool_decide (length (VirtualNode.backendDefaults this) = 0%nat)
  then
    let tlsClientPolicy := BackendDefaults.tlsClientPolicy backendDefaults in
    push_backendDefaults
      (CfnVirtualNode.mkBackendDefaults
         (CfnVirtualNode.mkClientPolicy {|
            CfnVirtualNode.enforce := nullish (TLSClientPolicyOptions.enforce tlsClientPolicy) true;
            CfnVirtualNode.validation :=
              TLSValidationConfig.tlsValidation
                (TLSClientValidation.bind (TLSClientPolicyOptions.validation tlsClientPolicy) this);
            CfnVirtualNode.ports := TLSClientPolicyOptions.ports tlsClientPolicy;
          |}))
  else throw (mkError "Virtual Node can have only one backend default").

(** *** Vocabulary of the statements *)

(** The record that [addBackends] pushes for one virtual service. *)
Definition backendOf (s : IVirtualService.t) : CfnVirtualNode.BackendProperty :=
  CfnVirtualNode.mkBackend
    (CfnVirtualNode.mkVirtualServiceBackend (IVirtualService.virtualServiceName s)).

(** The port mapping that a listener ends up with. *)
Definition portMappingOf (listener : VirtualNodeListener.t Duration) : PortMapping.t :=
  or_else (VirtualNodeListener.portMapping listener) (PortMapping.mk 8080 HTTP).

(** [rendered listener p]: [p] is the record that the loop of [addListeners]
    pushes for [listener]. *)
Definition rendered (listener : VirtualNodeListener.t Duration)
    (p : CfnVirtualNode.ListenerProperty) : Prop :=
  CfnVirtualNode.portMapping p = portMappingOf listener ∧
  renderHealthCheck (VirtualNodeListener.healthCheck listener) (portMappingOf listener)
  = Normal (CfnVirtualNode.healthCheck p).

(** [defaultsFilled listener p]: the pushed record [p] belongs to [listener],
    and every property that [listener] leaves out has its default in it.

    The port mapping of [p] is the listener's own, and 8080 with HTTP when
    the listener has none.  The protocol in effect for the health check is
    the one the health check names, and the one of this port mapping when it
    names none.  A listener without health check gets none. *)
Definition defaultsFilled (listener : VirtualNodeListener.t Duration)
    (p : CfnVirtualNode.ListenerProperty) : Prop :=
  let pm :=
    match VirtualNodeListener.portMapping listener with
    | Some pm => pm
    | None => PortMapping.mk 8080 HTTP
    end in
  CfnVirtualNode.portMapping p = pm ∧
  match VirtualNodeListener.healthCheck listener with
  | None => CfnVirtualNode.healthCheck p = None
  | Some hc =>
    let protocol :=
      match HealthCheck.protocol hc with
      | Some protocol => protocol
      | None => PortMapping.protocol pm
      end in
    ∃ r, CfnVirtualNode.healthCheck p = Some r ∧
      (HealthCheck.healthyThreshold hc = None → CfnVirtualNode.healthyThreshold r = 2) ∧
      (HealthCheck.unhealthyThreshold hc = None → CfnVirtualNode.unhealthyThreshold r = 2) ∧
      (HealthCheck.interval hc = None → CfnVirtualNode.intervalMillis r = 5000) ∧
      (HealthCheck.timeout hc = None → CfnVirtualNode.timeoutMillis r = 2000) ∧
      (HealthCheck.port hc = None → CfnVirtualNode.port r = PortMapping.port pm) ∧
      CfnVirtualNode.protocol r = protocol ∧
      (HealthCheck.path hc = None →
       CfnVirtualNode.path r = if bool_decide (protocol = HTTP) then Some "/"%string else None)
  end.

(** A health check with a path that is not the empty string, together with
    the protocol [protocol] written in the health check itself. *)
Definition pathWithProtocol (hc : HealthCheck.t Duration) (protocol : Protocol) : Prop :=
  HealthCheck.protocol hc = Some protocol ∧
  ∃ p : string, HealthCheck.path hc = Some p ∧ p ≠ ""%string.

(** Lines 410 to 414 of the constructor of [VirtualNode]: the statements
    that fill the three arrays.  The rest of the constructor is not embedded:
    [super(...)] before them, [props.accessLog?.bind(this)] and
    [new CfnVirtualNode(...)] after them, run code that is not in the
    embedded files. *)
Definition constructor_fill (props : VirtualNodeProps.t Duration) : M unit :=
  _ ← addBackends (or_else (VirtualNodeProps.backends props) []);
  _ ← addListeners
        (match VirtualNodeProps.listener props with
         | Some listener => [listener]
         | None => []
         end);
  match VirtualNodeProps.backendDefaults props with
  | Some backendDefaults => addBackendDefaults backendDefaults
  | None => mret ()
  end.

(** *** Clients of a node

    A client holds a node and calls its three mutating methods, in any order
    and with any arguments; a call that throws may be caught, after which the
    client goes on with the node as the call left it. *)
Inductive Call : Type :=
  | AddBackends (props : list IVirtualService.t)
  | AddListeners (listeners : list (VirtualNodeListener.t Duration))
  | AddBackendDefaults (backendDefaults : BackendDefaults.t).

Definition call (c : Call) : M unit :=
  match c with
  | AddBackends props => addBackends props
  | AddListeners listeners => addListeners listeners
  | AddBackendDefaults backendDefaults => addBackendDefaults backendDefaults
  end.

(** [evolves this this']: some sequence of calls takes the node from [this]
    to [this']. *)
Inductive evolves (this : VirtualNode.t) : VirtualNode.t → Prop :=
  | evolves_refl : evolves this this
  | evolves_call this' c : evolves this this' → evolves this (call c this').2.

(** The nodes that exist: a node starts with three empty arrays (the
    constructor and the two import factories add to them through the methods
    only). *)
Definition reachable (this : VirtualNode.t) : Prop := evolves VirtualNode.new this.

End VirtualNodeTs.

(** ** The client-policy file *)

Module ClientPolicyTs.

Module FileTrustOptions.
Record t : Type := mk {
  enforceTls : option bool;
  ports : option (list Z);
  certificateChain : list string;
}.
End FileTrustOptions.

Module AcmTrustOptions.
Record t : Type := mk {
  enforceTls : option bool;
  ports : option (list Z);
  certificateAuthorityArns : list string;
}.
End AcmTrustOptions.

(** The two object literals of [renderValidation].  [this.certificate[0]] is
    [undefined] when the array is empty. *)
Inductive TrustValue : Type :=
  | FileTrustValue (certificateChain : option string)
  | AcmTrustValue (certificateAuthorityArns : list string).

(** [trust] is built with a computed key, [{ [this.certificateType]: ... }]:
    an object with one own property whose name is a run-time string. *)
Record TlsValidationContextProperty : Type := mkTlsValidationContext {
  trust : gmap string TrustValue;
}.

Record ClientPolicyTlsProperty : Type := mkClientPolicyTls {
  tls_ports : option (list Z);
  tls_enforce : bool;
  tls_validation : TlsValidationContextProperty;
}.

Record ClientPolicyProperty : Type := mkClientPolicy {
  tls : ClientPolicyTlsProperty;
}.

Module ClientPolicyConfig.
Record t : Type := mk { clientPolicy : ClientPolicyProperty }.
End ClientPolicyConfig.

Module ClientPolicyImpl.
Record t : Type := mk {
  enforce : bool;
  ports : option (list Z);
  certificateType : string;
  certificate : list string;
}.

(** The constructor; its first parameter is declared [enforce: boolean = true],
    so the default steps in when the argument is [undefined]. *)
Definition new (enforce : option bool) (ports : option (list Z))
    (certificateType : string) (certificate : list string) : t :=
  mk (nullish enforce true) ports certificateType certificate.

Definition renderValidation (this : t) : TlsValidationContextProperty :=
  mkTlsValidationContext
    {[ certificateType this :=
         if bool_decide (certificateType this = "file"%string)
         then FileTrustValue (certificate this !! 0%nat)
         else AcmTrustValue (certificate this) ]}.

Definition bind {Scope : Type} (this : t) (_scope : Scope) : ClientPolicyConfig.t :=
  ClientPolicyConfig.mk
    (mkClientPolicy
       {| tls_ports := ports this;
          tls_enforce := enforce this;
          tls_validation := renderValidation this |}).
End ClientPolicyImpl.

Module ClientPolicy.
Definition fileTrust (props : FileTrustOptions.t) : ClientPolicyImpl.t :=
  ClientPolicyImpl.new (FileTrustOptions.enforceTls props) (FileTrustOptions.ports props)
    "file" (FileTrustOptions.certificateChain props).

Definition acmTrust (props : AcmTrustOptions.t) : ClientPolicyImpl.t :=
  ClientPolicyImpl.new (AcmTrustOptions.enforceTls props) (AcmTrustOptions.ports props)
    "acm" (AcmTrustOptions.certificateAuthorityArns props).

Definition bind {Scope : Type} (this : ClientPolicyImpl.t) (scope : Scope) : ClientPolicyConfig.t :=
  ClientPolicyImpl.bind this scope.
End ClientPolicy.

End ClientPolicyTs.

(** ** virtual-node.ts: [renderAttributes] *)

(** One element of the array that [renderAttributes] returns: the object
    literal [{ key, value }]. *)
Module AwsCloudMapInstanceAttribute.
Record t : Type := mk { key : string; value : string }.
End AwsCloudMapInstanceAttribute.

(** [renderAttributes(attrs)].  The object [attrs] is given by what
    [Object.entries(attrs)] returns for it: its own properties as pairs of
    key and value, in property order. *)
Definition renderAttributes (attrs : option (list (string * string)))
  : option (list AwsCloudMapInstanceAttribute.t) :=
  match attrs with
  | None => None
  | Some entries =>
      Some (map (fun '(key, value) => AwsCloudMapInstanceAttribute.mk key value) entries)
  end.

(** ** More vocabulary *)

(** The record that [addBackendDefaults] pushes for its argument. *)
Definition backendDefaultsOf (backendDefaults : BackendDefaults.t)
  : CfnVirtualNode.BackendDefaultsProperty :=
  let tlsClientPolicy := BackendDefaults.tlsClientPolicy backendDefaults in
  CfnVirtualNode.mkBackendDefaults
    (CfnVirtualNode.mkClientPolicy {|
       CfnVirtualNode.enforce := nullish (TLSClientPolicyOptions.enforce tlsClientPolicy) true;
       CfnVirtualNode.validation :=
         TLSValidationConfig.tlsValidation
           (TLSClientValidation.bind (TLSClientPolicyOptions.validation tlsClientPolicy) ());
       CfnVirtualNode.ports := TLSClientPolicyOptions.ports tlsClientPolicy;
     |}).

(** The array that a call works on. *)
Inductive NodeArray : Type := BackendsArray | ListenersArray | BackendDefaultsArray.

Definition arrayOf {Duration : Type} (c : Call (Duration := Duration)) : NodeArray :=
  match c with
  | AddBackends _ => BackendsArray
  | AddListeners _ => ListenersArray
  | AddBackendDefaults _ => BackendDefaultsArray
  end.

(** An optional property with its falsy values ([0], ['']) taken out. *)
Definition keepTruthy {A} `{Truthy A} (x : option A) : option A :=
  match x with
  | Some v => if truthy v then Some v else None
  | None => None
  end.

(** The health check [hc] without its thresholds, port and path that are
    falsy. *)
Definition dropFalsy {Duration : Type} (hc : HealthCheck.t Duration)
  : HealthCheck.t Duration :=
  HealthCheck.mk (keepTruthy (HealthCheck.healthyThreshold hc)) (HealthCheck.interval hc)
    (keepTruthy (HealthCheck.path hc)) (keepTruthy (HealthCheck.port hc))
    (HealthCheck.protocol hc) (HealthCheck.timeout hc)
    (keepTruthy (HealthCheck.unhealthyThreshold hc)).

(** What holds of a health-check record that sits in a node. *)
Definition soundHealthCheck
    (validate : CfnVirtualNode.HealthCheckProperty → Completion unit)
    (r : CfnVirtualNode.HealthCheckProperty) : Prop :=
  throws (validate r) = false ∧
  CfnVirtualNode.healthyThreshold r ≠ 0 ∧
  CfnVirtualNode.unhealthyThreshold r ≠ 0 ∧
  CfnVirtualNode.path r ≠ Some ""%string ∧
  (CfnVirtualNode.protocol r = HTTP → CfnVirtualNode.path r ≠ None).

(** The trust object [m] of the client-policy file and the trust record [t]
    of virtual-node.ts are the same JavaScript object: the same keys among
    [file] and [acm], with the same contents, and no other key. *)
Definition sameTrust (m : gmap string ClientPolicyTs.TrustValue)
    (t : CfnVirtualNode.TlsValidationContextTrustProperty) : Prop :=
  m !! "file"%string =
    (fun f => ClientPolicyTs.FileTrustValue (Some (CfnVirtualNode.certificateChain f)))
      <$> CfnVirtualNode.file t ∧
  m !! "acm"%string =
    (fun a => ClientPolicyTs.AcmTrustValue (CfnVirtualNode.certificateAuthorityArns a))
      <$> CfnVirtualNode.acm t ∧
  ∀ k, k ≠ "file"%string → k ≠ "acm"%string → m !! k = None.

(** The client policy [n] that the client-policy file builds and the
    backend-defaults record [d] that virtual-node.ts stores describe the same
    TLS client policy. *)
Definition samePolicy (n : ClientPolicyTs.ClientPolicyConfig.t)
    (d : CfnVirtualNode.BackendDefaultsProperty) : Prop :=
  let new := ClientPolicyTs.tls (ClientPolicyTs.ClientPolicyConfig.clientPolicy n) in
  let old := CfnVirtualNode.tls (CfnVirtualNode.clientPolicy d) in
  ClientPolicyTs.tls_enforce new = CfnVirtualNode.enforce old ∧
  ClientPolicyTs.tls_ports new = CfnVirtualNode.ports old ∧
  sameTrust (ClientPolicyTs.trust (ClientPolicyTs.tls_validation new))
    (CfnVirtualNode.trust (CfnVirtualNode.validation old)).

(** ** Sample inputs *)

(** A sample [cdk.Duration] for the examples: the durations
    [Duration.seconds(x)] where [x] has at most four decimals, each given by
    its number of ten-thousandths of a second.  [toMilliseconds] returns the
    milliseconds when they are whole and throws the error of the cdk when
    they are not. *)
Module SampleDuration.
Record t : Type := tenThousandths { ofSecond : N }.

Definition seconds (n : N) : t := tenThousandths (10000 * n).

(** The amount as JavaScript prints it, for an amount that is not a whole
    number of milliseconds: the fourth decimal is not [0]. *)
Definition amount (d : t) : string :=
  let n := ofSecond d in
  pretty (n / 10000)%N +:+ "." +:+
  pretty (n / 1000 mod 10)%N +:+ pretty (n / 100 mod 10)%N +:+
  pretty (n / 10 mod 10)%N +:+ pretty (n mod 10)%N.

Definition toMilliseconds (d : t) : Completion Z :=
  if (ofSecond d mod 10 =? 0)%N
  then Normal (Z.of_N (ofSecond d / 10))
  else
    Throw (mkError ("'" +:+ amount d +:+
                    " seconds' cannot be converted into a whole number of millis.")).
End SampleDuration.

Global Instance SampleDuration_cdk : CdkDuration SampleDuration.t := {|
  Duration_seconds := SampleDuration.seconds;
  Duration_toMilliseconds := SampleDuration.toMilliseconds;
|}.

(** A [validateHealthChecks] that accepts every record. *)
Definition noValidation : CfnVirtualNode.HealthCheckProperty → Completion unit :=
  fun _ => Normal ().

(** [{ protocol: Protocol.TCP, path: '/ping' }] *)
Definition tcpPing : HealthCheck.t SampleDuration.t :=
  HealthCheck.mk None None (Some "/ping"%string) None (Some TCP) None None.

(** [{ protocol: Protocol.TCP, path: '' }]: the path is set, to the empty
    string. *)
Definition tcpEmptyPath : HealthCheck.t SampleDuration.t :=
  HealthCheck.mk None None (Some ""%string) None (Some TCP) None None.

(** [{ protocol: Protocol.TCP }]: no path. *)
Definition tcpOnly : HealthCheck.t SampleDuration.t :=
  HealthCheck.mk None None None None (Some TCP) None None.



(** [{ interval: Duration.seconds(5.0005) }] and
    [{ path: '/ping', interval: Duration.seconds(5.0005) }]: an interval that
    is not a whole number of milliseconds. *)
Definition oddInterval : HealthCheck.t SampleDuration.t :=
  HealthCheck.mk None (Some (SampleDuration.tenThousandths 50005)) None None None None None.


(** [{}]: a listener with neither port mapping nor health check. *)
Definition plainListener : VirtualNodeListener.t SampleDuration.t :=
  VirtualNodeListener.mk None None.

(** [{ healthCheck: {} }] *)
Definition checkedListener : VirtualNodeListener.t SampleDuration.t :=
  VirtualNodeListener.mk None (Some HealthCheck.empty).

(** [{ healthCheck: { protocol: Protocol.TCP, path: '/ping' } }] *)
Definition tcpPingListener : VirtualNodeListener.t SampleDuration.t :=
  VirtualNodeListener.mk None (Some tcpPing).


(** The node after [addListeners({})] on a new node. *)
Definition oneListenerNode : VirtualNode.t :=
  VirtualNode.mk [] [CfnVirtualNode.mkListener (PortMapping.mk 8080 HTTP) None] [].

(** Backend defaults with a file trust and nothing else set. *)
Definition fileDefaults : BackendDefaults.t :=
  BackendDefaults.mk
    (TLSClientPolicyOptions.mk None None
       (TLSClientValidation.fileTrust (FileTrustOptions.mk "/certs/chain.pem"))).

(** * Properties *)


(** ** Reasoning about method bodies *)

Lemma M_bind_eq {A B} (m : M A) (k : A → M B) this :
  (m ≫= k) this =
  match m this with
  | (Normal a, this') => k a this'
  | (Throw e, this') => (Throw e, this')
  end.
Proof. reflexivity. Qed.

Lemma M_ret_eq {A} (a : A) this : (mret a : M A) this = (Normal a, this).
Proof. reflexivity. Qed.

Lemma VirtualNode_eta this :
  VirtualNode.mk (VirtualNode.backends this) (VirtualNode.listeners this)
    (VirtualNode.backendDefaults this) = this.
Proof. by destruct this. Qed.

(** ** [addBackends] *)

Lemma addBackends_eq props this :
  addBackends props this =
  (Normal (),
   VirtualNode.mk (VirtualNode.backends this ++ map backendOf props)
     (VirtualNode.listeners this) (VirtualNode.backendDefaults this)).
Proof.
  unfold addBackends. revert this.
  induction props as [|s props IH]; intros this.
  - cbn. by rewrite app_nil_r, VirtualNode_eta.
  - cbn [forOf map]. rewrite M_bind_eq. cbn [push_backends].
    rewrite IH. cbn. by rewrite <- app_assoc.
Qed.

(** ** [addBackendDefaults] *)

Lemma addBackendDefaults_first backendDefaults this :
  VirtualNode.backendDefaults this = [] →
  ∃ record,
    addBackendDefaults backendDefaults this =
    (Normal (),
     VirtualNode.mk (VirtualNode.backends this) (VirtualNode.listeners this) [record]).
Proof.
  intros Hempty. unfold addBackendDefaults. rewrite M_bind_eq. cbn [getThis].
  rewrite Hempty. cbn [length]. rewrite bool_decide_eq_true_2 by done.
  eexists. unfold push_backendDefaults. by rewrite Hempty.
Qed.

Lemma addBackendDefaults_again backendDefaults this :
  VirtualNode.backendDefaults this ≠ [] →
  addBackendDefaults backendDefaults this =
  (Throw (mkError "Virtual Node can have only one backend default"), this).
Proof.
  intros Hne. unfold addBackendDefaults. rewrite M_bind_eq. cbn [getThis].
  rewrite bool_decide_eq_false_2; [done|].
  by destruct (VirtualNode.backendDefaults this).
Qed.

(** ** [addListeners] *)

Section Listeners.
Context {Duration : Type} `{!CdkDuration Duration}.
Variable validateHealthChecks : CfnVirtualNode.HealthCheckProperty → Completion unit.

Local Abbreviation renderHealthCheck := (renderHealthCheck validateHealthChecks).
Local Abbreviation addListeners_body := (addListeners_body validateHealthChecks).
Local Abbreviation addListeners := (addListeners validateHealthChecks).
Local Abbreviation rendered := (rendered validateHealthChecks).

Lemma addListeners_body_eq listener this :
  addListeners_body listener this =
  match renderHealthCheck (VirtualNodeListener.healthCheck listener) (portMappingOf listener) with
  | Normal healthCheck =>
      (Normal (),
       VirtualNode.mk (VirtualNode.backends this)
         (VirtualNode.listeners this
            ++ [CfnVirtualNode.mkListener (portMappingOf listener) healthCheck])
         (VirtualNode.backendDefaults this))
  | Throw e => (Throw e, this)
  end.
Proof.
  unfold addListeners_body, portMappingOf. rewrite M_bind_eq. cbn [liftC].
  by destruct (renderHealthCheck _ _).
Qed.

(** The loop on its own, without the guard in front of it: it pushes one
    record per listener until a health check is refused, and what it has
    pushed by then stays. *)
Lemma forOf_addListeners_body listeners this c this' :
  forOf listeners addListeners_body this = (c, this') →
  VirtualNode.backends this' = VirtualNode.backends this ∧
  VirtualNode.backendDefaults this' = VirtualNode.backendDefaults this ∧
  ∃ added,
    VirtualNode.listeners this' = VirtualNode.listeners this ++ added ∧
    match c with
    | Normal _ => Forall2 rendered listeners added
    | Throw e =>
        ∃ passed listener rest,
          listeners = passed ++ listener :: rest ∧
          Forall2 rendered passed added ∧
          renderHealthCheck (VirtualNodeListener.healthCheck listener)
            (portMappingOf listener) = Throw e
    end.
Proof.
  revert this. induction listeners as [|l ls IH]; intros this Hrun.
  - cbn [forOf] in Hrun. rewrite M_ret_eq in Hrun. simplify_eq.
    split_and!; [done..|]. exists []. by rewrite app_nil_r.
  - cbn [forOf] in Hrun. rewrite M_bind_eq, addListeners_body_eq in Hrun.
    destruct (renderHealthCheck _ _) as [h|e] eqn:Hhc.
    + apply IH in Hrun as (Hb & Hd & added & Hl & Hc). cbn in Hb, Hd, Hl.
      split_and!; [done..|].
      exists (CfnVirtualNode.mkListener (portMappingOf l) h :: added).
      split; [by rewrite Hl, <- app_assoc|].
      destruct c as [[]|e].
      * by constructor.
      * destruct Hc as (passed & l' & rest & -> & Hp & He).
        exists (l :: passed), l', rest. split_and!; [done| |done].
        by constructor.
    + simplify_eq. split_and!; [done..|].
      exists []. split; [by rewrite app_nil_r|].
      by exists [], l, ls.
Qed.

Lemma addListeners_guard listeners this :
  (1 < length (VirtualNode.listeners this) + length listeners)%nat →
  addListeners listeners this =
  (Throw (mkError "VirtualNode may have at most one listener"), this).
Proof.
  intros Hlen. unfold addListeners. rewrite M_bind_eq. cbn [getThis].
  by rewrite bool_decide_eq_true_2.
Qed.

Lemma addListeners_room listeners this :
  (length (VirtualNode.listeners this) + length listeners ≤ 1)%nat →
  addListeners listeners this = forOf listeners addListeners_body this.
Proof.
  intros Hlen. unfold addListeners. rewrite M_bind_eq. cbn [getThis].
  rewrite bool_decide_eq_false_2; [done|lia].
Qed.

(** A call that throws leaves the whole node as it found it. *)
Lemma addListeners_throw_unchanged listeners this e this' :
  addListeners listeners this = (Throw e, this') → this' = this.
Proof.
  intros Hrun.
  destruct (decide (1 < length (VirtualNode.listeners this) + length listeners)%nat)
    as [Hlen|Hlen].
  - rewrite addListeners_guard in Hrun by done. by simplify_eq.
  - rewrite addListeners_room in Hrun by lia.
    destruct listeners as [|l [|l' ls]]; [by cbn in Hrun| |cbn in Hlen; lia].
    cbn [forOf] in Hrun. rewrite M_bind_eq, addListeners_body_eq in Hrun.
    destruct (renderHealthCheck _ _); cbn in Hrun; by simplify_eq.
Qed.

(** A call that returns has pushed one record per listener, in order, and
    has touched nothing else. *)
Lemma addListeners_normal listeners this this' :
  addListeners listeners this = (Normal (), this') →
  VirtualNode.backends this' = VirtualNode.backends this ∧
  VirtualNode.backendDefaults this' = VirtualNode.backendDefaults this ∧
  ∃ added,
    VirtualNode.listeners this' = VirtualNode.listeners this ++ added ∧
    Forall2 rendered listeners added ∧
    (length (VirtualNode.listeners this) + length listeners ≤ 1)%nat.
Proof.
  intros Hrun.
  destruct (decide (1 < length (VirtualNode.listeners this) + length listeners)%nat)
    as [Hlen|Hlen].
  - rewrite addListeners_guard in Hrun by done. by simplify_eq.
  - rewrite addListeners_room in Hrun by lia.
    apply forOf_addListeners_body in Hrun as (Hb & Hd & added & Hl & Hr).
    split_and!; [done..|]. exists added. split_and!; [done..|lia].
Qed.

End Listeners.

(** ** Sequences of calls *)

Section Clients.
Context {Duration : Type} `{!CdkDuration Duration}.
Variable validate : CfnVirtualNode.HealthCheckProperty → Completion unit.

(** What one call, however it ends, does to the three arrays. *)
Lemma call_frame c this :
  VirtualNode.backends this `prefix_of` VirtualNode.backends (call validate c this).2 ∧
  VirtualNode.listeners this `prefix_of` VirtualNode.listeners (call validate c this).2 ∧
  VirtualNode.backendDefaults this
    `prefix_of` VirtualNode.backendDefaults (call validate c this).2 ∧
  ((length (VirtualNode.listeners this) ≤ 1)%nat →
   (length (VirtualNode.listeners (call validate c this).2) ≤ 1)%nat) ∧
  ((length (VirtualNode.backendDefaults this) ≤ 1)%nat →
   (length (VirtualNode.backendDefaults (call validate c this).2) ≤ 1)%nat) ∧
  (VirtualNode.backendDefaults this ≠ [] →
   VirtualNode.backendDefaults (call validate c this).2 = VirtualNode.backendDefaults this).
Proof.
  destruct c as [props|listeners|backendDefaults]; cbn [call].
  - rewrite addBackends_eq. cbn. split_and!; try done. by eexists.
  - destruct (addListeners validate listeners this) as [[[]|e] this'] eqn:Hrun; cbn [snd].
    + apply addListeners_normal in Hrun as (Hb & Hd & added & Hl & Hr & Hlen).
      apply Forall2_length in Hr. rewrite Hb, Hd, Hl.
      split_and!; try done; [by eexists|].
      rewrite length_app. lia.
    + apply addListeners_throw_unchanged in Hrun as ->. by split_and!.
  - destruct (VirtualNode.backendDefaults this) as [|d ds] eqn:Hd.
    + destruct (addBackendDefaults_first backendDefaults this Hd) as [record ->].
      cbn. split_and!; try done. apply prefix_nil.
    + rewrite addBackendDefaults_again by by rewrite Hd.
      cbn. rewrite Hd. by split_and!.
Qed.

Lemma evolves_prefix this this' :
  evolves validate this this' →
  VirtualNode.backends this `prefix_of` VirtualNode.backends this' ∧
  VirtualNode.listeners this `prefix_of` VirtualNode.listeners this' ∧
  VirtualNode.backendDefaults this `prefix_of` VirtualNode.backendDefaults this'.
Proof.
  induction 1 as [|this' c _ (Hb & Hl & Hd)]; [done|].
  destruct (call_frame c this') as (Hb' & Hl' & Hd' & _).
  split_and!; by etrans.
Qed.

Lemma evolves_backendDefaults_kept this this' :
  VirtualNode.backendDefaults this ≠ [] →
  evolves validate this this' →
  VirtualNode.backendDefaults this' = VirtualNode.backendDefaults this.
Proof.
  intros Hne. induction 1 as [|this' c _ IH]; [done|].
  destruct (call_frame c this') as (_ & _ & _ & _ & _ & Hkept).
  rewrite Hkept; [done|]. by rewrite IH.
Qed.

Lemma reachable_at_most_one this :
  reachable validate this →
  (length (VirtualNode.listeners this) ≤ 1)%nat ∧
  (length (VirtualNode.backendDefaults this) ≤ 1)%nat.
Proof.
  induction 1 as [|this' c _ [IHl IHd]]; [cbn; lia|].
  destruct (call_frame c this') as (_ & _ & _ & Hl & Hd & _). auto.
Qed.

(** The constructor fills the arrays by one such sequence of calls: whatever
    it leaves behind is a reachable node. *)
Lemma constructor_fill_reachable props :
  reachable validate (constructor_fill validate props VirtualNode.new).2.
Proof.
  unfold constructor_fill. rewrite M_bind_eq.
  pose proof (evolves_call validate VirtualNode.new _
                (AddBackends (or_else (VirtualNodeProps.backends props) []))
                (evolves_refl _ _)) as H1.
  cbn [call] in H1.
  destruct (addBackends _ VirtualNode.new) as [[[]|e] this1]; cbn [snd] in *; [|done].
  rewrite M_bind_eq.
  pose proof (evolves_call validate VirtualNode.new _
                (AddListeners
                   (match VirtualNodeProps.listener props with
                    | Some listener => [listener]
                    | None => []
                    end)) H1) as H2.
  cbn [call] in H2.
  destruct (addListeners validate _ this1) as [[[]|e] this2]; cbn [snd] in *; [|done].
  destruct (VirtualNodeProps.backendDefaults props) as [backendDefaults|]; [|done].
  apply (evolves_call validate VirtualNode.new _
           (AddBackendDefaults backendDefaults) H2).
Qed.

End Clients.

(** ** The embedding at work *)

Example addListeners_plainListener :
  addListeners noValidation [plainListener] VirtualNode.new = (Normal (), oneListenerNode).
Proof. reflexivity. Qed.

(** [||] replaces a threshold of [0] as it replaces a missing one. *)
Example renderHealthCheck_zero_threshold :
  renderHealthCheck noValidation
    (Some (HealthCheck.mk (Duration := SampleDuration.t)
             (Some 0) None None None None None (Some 7)))
    (PortMapping.mk 8080 HTTP2) =
  Normal (Some (CfnVirtualNode.mkHealthCheck 2 5000 None 8080 HTTP2 2000 7)).
Proof. reflexivity. Qed.

Example constructor_fill_fills_arrays :
  constructor_fill noValidation
    (VirtualNodeProps.mk (Some [IVirtualService.mk "orders"; IVirtualService.mk "billing"])
       (Some plainListener) (Some fileDefaults))
    VirtualNode.new =
  (Normal (),
   VirtualNode.mk
     [backendOf (IVirtualService.mk "orders"); backendOf (IVirtualService.mk "billing")]
     [CfnVirtualNode.mkListener (PortMapping.mk 8080 HTTP) None]
     [CfnVirtualNode.mkBackendDefaults
        (CfnVirtualNode.mkClientPolicy
           (CfnVirtualNode.mkClientPolicyTls true
              (CfnVirtualNode.mkTlsValidationContext
                 (CfnVirtualNode.mkTrust None
                    (Some (CfnVirtualNode.mkFileTrust "/certs/chain.pem"))))
              None))]).
Proof. reflexivity. Qed.

(** ** The listeners of a node *)

(** C1, as amended.  [addListeners] throws 'VirtualNode may have at most one
    listener', leaving the node as it is, whenever the stored listeners and
    the passed ones together are more than one.  Otherwise it either returns,
    having appended one rendered record per passed listener, in order, or it
    throws the error of rendering the health check of a passed listener and
    leaves the node as it is.  The [listeners] array of a node that exists
    never holds more than one element. *)
Theorem addListeners_at_most_one_listener {Duration : Type} `{!CdkDuration Duration}
    validate listeners this :
  ((1 < length (VirtualNode.listeners this) + length listeners)%nat →
   addListeners validate listeners this =
   (Throw (mkError "VirtualNode may have at most one listener"), this)) ∧
  ((length (VirtualNode.listeners this) + length listeners ≤ 1)%nat →
   match addListeners validate listeners this with
   | (Normal _, this') =>
       ∃ added,
         VirtualNode.listeners this' = VirtualNode.listeners this ++ added ∧
         Forall2 (rendered validate) listeners added
   | (Throw e, this') =>
       this' = this ∧
       ∃ listener,
         listener ∈ listeners ∧
         renderHealthCheck validate (VirtualNodeListener.healthCheck listener)
           (portMappingOf listener) = Throw e
   end) ∧
  (reachable validate this → (length (VirtualNode.listeners this) ≤ 1)%nat).
Proof.
  split_and!.
  - apply addListeners_guard.
  - intros Hlen.
    destruct (addListeners validate listeners this) as [[[]|e] this'] eqn:Hrun.
    + apply addListeners_normal in Hrun as (_ & _ & added & Hl & Hr & _). eauto.
    + pose proof (addListeners_throw_unchanged _ _ _ _ _ Hrun) as ->.
      split; [done|].
      rewrite addListeners_room in Hrun by done.
      apply forOf_addListeners_body in Hrun
        as (_ & _ & _ & _ & passed & listener & rest & -> & _ & He).
      exists listener. split; [|done]. set_solver.
  - intros Hreach. by apply reachable_at_most_one in Hreach as [? _].
Qed.

Lemma addListeners_at_most_one_listener_witness :
  addListeners noValidation [plainListener; checkedListener] VirtualNode.new =
  (Throw (mkError "VirtualNode may have at most one listener"), VirtualNode.new) ∧
  (∃ added,
     VirtualNode.listeners (addListeners noValidation [checkedListener] VirtualNode.new).2 =
     [] ++ added ∧
     Forall2 (rendered noValidation) [checkedListener] added) ∧
  (length (VirtualNode.listeners oneListenerNode) ≤ 1)%nat.
Proof.
  split_and!.
  - apply (addListeners_at_most_one_listener noValidation
             [plainListener; checkedListener] VirtualNode.new).
    simpl. lia.
  - pose proof (proj1 (proj2 (addListeners_at_most_one_listener noValidation
                                 [checkedListener] VirtualNode.new))) as H.
    simpl in H. apply H. lia.
  - apply (addListeners_at_most_one_listener noValidation
             ([] : list (VirtualNodeListener.t SampleDuration.t)) oneListenerNode).
    apply (evolves_call noValidation VirtualNode.new VirtualNode.new
             (AddListeners [plainListener])).
    apply evolves_refl.
Defined.

(** C1 as stated fails: on a new node, one listener with the health check
    [{ protocol: Protocol.TCP, path: '/ping' }] does not take the count above
    one, and the call throws all the same and appends nothing, whatever
    [validateHealthChecks] is. *)
Lemma addListeners_room_but_throws :
  (length (VirtualNode.listeners VirtualNode.new) + length [tcpPingListener] ≤ 1)%nat ∧
  ∀ validate,
    addListeners validate [tcpPingListener] VirtualNode.new =
    (Throw (mkError "The path property cannot be set with Protocol.TCP"),
     VirtualNode.new).
Proof. split; [simpl; lia|]. intros validate. reflexivity. Qed.

(** C6.  Whenever [addListeners] throws, for whichever reason, the
    [listeners] array is what it was before the call. *)
Theorem addListeners_throw_keeps_listeners {Duration : Type} `{!CdkDuration Duration}
    validate listeners this e this' :
  addListeners validate listeners this = (Throw e, this') →
  VirtualNode.listeners this' = VirtualNode.listeners this.
Proof. intros Hrun. by rewrite (addListeners_throw_unchanged _ _ _ _ _ Hrun). Qed.

Lemma addListeners_throw_keeps_listeners_witness :
  addListeners noValidation [tcpPingListener] oneListenerNode =
  (Throw (mkError "VirtualNode may have at most one listener"), oneListenerNode) ∧
  VirtualNode.listeners oneListenerNode = VirtualNode.listeners oneListenerNode.
Proof.
  split; [reflexivity|].
  apply (addListeners_throw_keeps_listeners noValidation [tcpPingListener]
           oneListenerNode (mkError "VirtualNode may have at most one listener")).
  reflexivity.
Defined.

(** Without the guard the loop would not be all-or-nothing: run on two
    listeners of which the second is refused, it keeps the first. *)
Example forOf_addListeners_body_not_atomic :
  forOf [plainListener; tcpPingListener] (addListeners_body noValidation) VirtualNode.new =
  (Throw (mkError "The path property cannot be set with Protocol.TCP"), oneListenerNode).
Proof. reflexivity. Qed.

(** ** Health checks *)

Lemma Completion_bind_eq {A B} (c : Completion A) (k : A → Completion B) :
  (c ≫= k) = match c with Normal a => k a | Throw e => Throw e end.
Proof. reflexivity. Qed.

Lemma truthy_path_pathWithProtocol {Duration : Type} (hc : HealthCheck.t Duration) protocol :
  bool_decide (HealthCheck.protocol hc = Some protocol) && truthy_opt (HealthCheck.path hc)
  = true ↔ pathWithProtocol hc protocol.
Proof.
  unfold pathWithProtocol. rewrite andb_true_iff, bool_decide_eq_true.
  apply and_iff_compat_l.
  destruct (HealthCheck.path hc) as [[|a p]|]; cbn; split; try done.
  - by intros (p & [= <-] & Hp).
  - intros _. by eexists.
  - by intros (p & ? & _).
Qed.

Lemma renderHealthCheck_illegal {Duration : Type} `{!CdkDuration Duration} validate
    (hc : HealthCheck.t Duration) pm :
  pathWithProtocol hc TCP ∨ pathWithProtocol hc GRPC →
  throws (renderHealthCheck validate (Some hc) pm) = true.
Proof.
  intros Hill. unfold renderHealthCheck.
  destruct (bool_decide _ && _) eqn:Htcp; [done|].
  destruct Hill as [Hill|Hill]; apply truthy_path_pathWithProtocol in Hill.
  - congruence.
  - by rewrite Hill.
Qed.

Lemma renderHealthCheck_legal {Duration : Type} `{!CdkDuration Duration} validate
    (hc : HealthCheck.t Duration) pm :
  ¬ pathWithProtocol hc TCP → ¬ pathWithProtocol hc GRPC →
  renderHealthCheck validate (Some hc) pm =
  match renderHealthCheck_healthCheck hc pm with
  | Throw e => Throw e
  | Normal healthCheck =>
      match validate healthCheck with
      | Throw e => Throw e
      | Normal _ => Normal (Some healthCheck)
      end
  end.
Proof.
  intros Htcp Hgrpc. unfold renderHealthCheck.
  rewrite <- truthy_path_pathWithProtocol in Htcp, Hgrpc.
  apply not_true_is_false in Htcp, Hgrpc. rewrite Htcp, Hgrpc.
  rewrite Completion_bind_eq. destruct (renderHealthCheck_healthCheck hc pm); [|done].
  rewrite Completion_bind_eq. by destruct (validate _).
Qed.

(** What a record that was built says about the health check it was built
    from. *)
Lemma renderHealthCheck_healthCheck_Normal {Duration : Type} `{!CdkDuration Duration}
    (hc : HealthCheck.t Duration) pm r :
  renderHealthCheck_healthCheck hc pm = Normal r →
  Duration_toMilliseconds
    (match HealthCheck.interval hc with Some d => d | None => Duration_seconds 5 end)
  = Normal (CfnVirtualNode.intervalMillis r) ∧
  Duration_toMilliseconds
    (match HealthCheck.timeout hc with Some d => d | None => Duration_seconds 2 end)
  = Normal (CfnVirtualNode.timeoutMillis r) ∧
  CfnVirtualNode.healthyThreshold r = or_else (HealthCheck.healthyThreshold hc) 2 ∧
  CfnVirtualNode.unhealthyThreshold r = or_else (HealthCheck.unhealthyThreshold hc) 2 ∧
  CfnVirtualNode.port r = or_else (HealthCheck.port hc) (PortMapping.port pm) ∧
  CfnVirtualNode.protocol r = nullish (HealthCheck.protocol hc) (PortMapping.protocol pm) ∧
  CfnVirtualNode.path r =
  or_undef (HealthCheck.path hc)
    (if bool_decide (nullish (HealthCheck.protocol hc) (PortMapping.protocol pm) = HTTP)
     then Some "/"%string else None).
Proof.
  unfold renderHealthCheck_healthCheck. rewrite Completion_bind_eq.
  replace (or_else (HealthCheck.interval hc) (Duration_seconds 5))
    with (match HealthCheck.interval hc with Some d => d | None => Duration_seconds 5 end)
    by by destruct (HealthCheck.interval hc).
  replace (or_else (HealthCheck.timeout hc) (Duration_seconds 2))
    with (match HealthCheck.timeout hc with Some d => d | None => Duration_seconds 2 end)
    by by destruct (HealthCheck.timeout hc).
  destruct (Duration_toMilliseconds
              (match HealthCheck.interval hc with Some d => d | None => _ end))
    as [intervalMillis|e]; [|done].
  rewrite Completion_bind_eq.
  destruct (Duration_toMilliseconds
              (match HealthCheck.timeout hc with Some d => d | None => _ end))
    as [timeoutMillis|e]; [|done].
  intros [= <-]. cbn. by split_and!.
Qed.

(** What a call of [renderHealthCheck] that returns a record has gone
    through. *)
Lemma renderHealthCheck_Normal {Duration : Type} `{!CdkDuration Duration} validate
    (hc : HealthCheck.t Duration) pm r :
  renderHealthCheck validate (Some hc) pm = Normal (Some r) →
  renderHealthCheck_healthCheck hc pm = Normal r ∧
  throws (validate r) = false ∧
  bool_decide (HealthCheck.protocol hc = Some TCP) && truthy_opt (HealthCheck.path hc)
  = false ∧
  bool_decide (HealthCheck.protocol hc = Some GRPC) && truthy_opt (HealthCheck.path hc)
  = false.
Proof.
  unfold renderHealthCheck. intros Hr.
  destruct (bool_decide _ && _); [done|].
  destruct (bool_decide _ && _); [done|].
  rewrite Completion_bind_eq in Hr.
  destruct (renderHealthCheck_healthCheck hc pm) as [r'|]; [|done].
  rewrite Completion_bind_eq in Hr.
  destruct (validate r') eqn:Hv; [|done].
  injection Hr as <-. by rewrite Hv.
Qed.

(** Building the record: the interval is converted, then the timeout. *)
Lemma renderHealthCheck_healthCheck_conversions {Duration : Type} `{!CdkDuration Duration}
    (hc : HealthCheck.t Duration) pm :
  match Duration_toMilliseconds
          (match HealthCheck.interval hc with Some d => d | None => Duration_seconds 5 end) with
  | Throw e => renderHealthCheck_healthCheck hc pm = Throw e
  | Normal intervalMillis =>
      match Duration_toMilliseconds
              (match HealthCheck.timeout hc with Some d => d | None => Duration_seconds 2 end) with
      | Throw e => renderHealthCheck_healthCheck hc pm = Throw e
      | Normal timeoutMillis =>
          ∃ healthCheck,
            renderHealthCheck_healthCheck hc pm = Normal healthCheck ∧
            CfnVirtualNode.intervalMillis healthCheck = intervalMillis ∧
            CfnVirtualNode.timeoutMillis healthCheck = timeoutMillis
      end
  end.
Proof.
  unfold renderHealthCheck_healthCheck. rewrite Completion_bind_eq.
  replace (or_else (HealthCheck.interval hc) (Duration_seconds 5))
    with (match HealthCheck.interval hc with Some d => d | None => Duration_seconds 5 end)
    by by destruct (HealthCheck.interval hc).
  replace (or_else (HealthCheck.timeout hc) (Duration_seconds 2))
    with (match HealthCheck.timeout hc with Some d => d | None => Duration_seconds 2 end)
    by by destruct (HealthCheck.timeout hc).
  destruct (Duration_toMilliseconds
              (match HealthCheck.interval hc with Some d => d | None => _ end))
    as [intervalMillis|e]; [|done].
  rewrite Completion_bind_eq.
  destruct (Duration_toMilliseconds
              (match HealthCheck.timeout hc with Some d => d | None => _ end))
    as [timeoutMillis|e]; [|done].
  by eexists.
Qed.

(** C2, as amended.  A listener passed to [addListeners] whose health check
    has a non-empty path together with the protocol TCP, or together with
    the protocol GRPC, makes the call throw.  For a health check without
    such a combination (an empty path counts as no path), [renderHealthCheck]
    builds the record, converting the interval and then the timeout to
    milliseconds, and hands it to [validateHealthChecks]: it throws what a
    conversion throws, else what that function throws, and returns the record
    when the conversions return and that function accepts it.  Without a
    health check it returns [undefined]. *)
Theorem renderHealthCheck_path_protocol {Duration : Type} `{!CdkDuration Duration} validate :
  (∀ (listeners : list (VirtualNodeListener.t Duration)) this listener hc,
     listener ∈ listeners →
     VirtualNodeListener.healthCheck listener = Some hc →
     pathWithProtocol hc TCP ∨ pathWithProtocol hc GRPC →
     throws (addListeners validate listeners this).1 = true) ∧
  (∀ (hc : HealthCheck.t Duration) pm,
     ¬ pathWithProtocol hc TCP → ¬ pathWithProtocol hc GRPC →
     renderHealthCheck validate (Some hc) pm =
     match renderHealthCheck_healthCheck hc pm with
     | Throw e => Throw e
     | Normal healthCheck =>
         match validate healthCheck with
         | Throw e => Throw e
         | Normal _ => Normal (Some healthCheck)
         end
     end) ∧
  (∀ (hc : HealthCheck.t Duration) pm,
     match Duration_toMilliseconds
             (match HealthCheck.interval hc with
              | Some interval => interval
              | None => Duration_seconds 5
              end) with
     | Throw e => renderHealthCheck_healthCheck hc pm = Throw e
     | Normal intervalMillis =>
         match Duration_toMilliseconds
                 (match HealthCheck.timeout hc with
                  | Some timeout => timeout
                  | None => Duration_seconds 2
                  end) with
         | Throw e => renderHealthCheck_healthCheck hc pm = Throw e
         | Normal timeoutMillis =>
             ∃ healthCheck,
               renderHealthCheck_healthCheck hc pm = Normal healthCheck ∧
               CfnVirtualNode.intervalMillis healthCheck = intervalMillis ∧
               CfnVirtualNode.timeoutMillis healthCheck = timeoutMillis
         end
     end) ∧
  (∀ pm, renderHealthCheck (Duration := Duration) validate None pm = Normal None).
Proof.
  split_and!; [| |apply renderHealthCheck_healthCheck_conversions|done].
  - intros listeners this listener hc Hin Hhc Hill.
    destruct (decide (1 < length (VirtualNode.listeners this) + length listeners)%nat)
      as [Hlen|Hlen].
    + by rewrite addListeners_guard.
    + rewrite addListeners_room by lia.
      destruct listeners as [|l [|l' ls]]; [set_solver| |cbn in Hlen; lia].
      apply list_elem_of_singleton in Hin as ->.
      cbn [forOf]. rewrite M_bind_eq, addListeners_body_eq, Hhc.
      pose proof (renderHealthCheck_illegal validate hc (portMappingOf l) Hill) as Hthrow.
      by destruct (renderHealthCheck validate (Some hc) (portMappingOf l)).
  - apply renderHealthCheck_legal.
Qed.

Lemma renderHealthCheck_path_protocol_witness :
  throws (addListeners noValidation [tcpPingListener] VirtualNode.new).1 = true ∧
  renderHealthCheck noValidation (Some tcpEmptyPath) (PortMapping.mk 8080 HTTP) =
  Normal (Some (CfnVirtualNode.mkHealthCheck 2 5000 None 8080 TCP 2000 2)).
Proof.
  destruct (renderHealthCheck_path_protocol (Duration := SampleDuration.t) noValidation)
    as (Hthrow & Hlegal & _ & _).
  split.
  - apply (Hthrow [tcpPingListener] VirtualNode.new tcpPingListener tcpPing).
    + apply list_elem_of_singleton. reflexivity.
    + reflexivity.
    + left. split; [reflexivity|]. exists "/ping"%string. split; [reflexivity|discriminate].
  - rewrite (Hlegal tcpEmptyPath (PortMapping.mk 8080 HTTP)).
    + reflexivity.
    + intros (_ & p & [= <-] & Hp). apply Hp. reflexivity.
    + intros ([=] & _).
Defined.

(** C2 as stated fails, in two ways.

    Whatever [validateHealthChecks] is: the health checks
    [{ protocol: Protocol.TCP, path: '' }] and [{ protocol: Protocol.TCP }]
    are rendered to the same record; the first sets the path together with
    TCP, so the call would have to throw; the second sets no path, so
    rendering it would have to go through.  No [validateHealthChecks] gives
    both.

    Whatever [validateHealthChecks] is, again: the health check
    [{ interval: Duration.seconds(5.0005) }] sets neither path nor protocol,
    and rendering it throws, in [toMilliseconds]. *)
Lemma renderHealthCheck_empty_path_counterexample :
  (¬ ∃ validate,
       throws (addListeners validate [VirtualNodeListener.mk None (Some tcpEmptyPath)]
                 VirtualNode.new).1 = true ∧
       throws (renderHealthCheck validate (Some tcpOnly) (PortMapping.mk 8080 HTTP)) = false) ∧
  (∀ validate,
     renderHealthCheck validate (Some oddInterval) (PortMapping.mk 8080 HTTP) =
     Throw (mkError "'5.0005 seconds' cannot be converted into a whole number of millis.")).
Proof.
  split.
  - intros (validate & Hthrow & Hpass).
    vm_compute in Hthrow, Hpass.
    destruct (validate _); congruence.
  - intros validate. reflexivity.
Qed.

(** ** Defaults *)

Lemma rendered_defaultsFilled {Duration : Type} `{!CdkDuration Duration} validate
    (listener : VirtualNodeListener.t Duration) p :
  Duration_toMilliseconds (Duration_seconds 5) = Normal 5000 →
  Duration_toMilliseconds (Duration_seconds 2) = Normal 2000 →
  rendered validate listener p → defaultsFilled listener p.
Proof.
  intros Hinterval Htimeout [Hpm Hhc]. unfold defaultsFilled.
  assert (portMappingOf listener =
          match VirtualNodeListener.portMapping listener with
          | Some pm => pm
          | None => PortMapping.mk 8080 HTTP
          end) as Hof
    by (unfold portMappingOf; by destruct (VirtualNodeListener.portMapping listener)).
  rewrite Hof in Hpm, Hhc. split; [done|].
  destruct (VirtualNodeListener.healthCheck listener) as [hc|]; [|by injection Hhc].
  destruct (CfnVirtualNode.healthCheck p) as [r|] eqn:Hp.
  2:{ unfold renderHealthCheck in Hhc.
      destruct (bool_decide _ && _); [done|]. destruct (bool_decide _ && _); [done|].
      rewrite Completion_bind_eq in Hhc.
      destruct (renderHealthCheck_healthCheck _ _); [|done].
      rewrite Completion_bind_eq in Hhc. by destruct (validate _). }
  apply renderHealthCheck_Normal in Hhc as (Hr & _).
  apply renderHealthCheck_healthCheck_Normal in Hr
    as (Hi & Ht & Hhealthy & Hunhealthy & Hport & Hprotocol & Hpath).
  exists r. split; [done|]. split_and!.
  - intros Hnone. by rewrite Hhealthy, Hnone.
  - intros Hnone. by rewrite Hunhealthy, Hnone.
  - intros Hnone. rewrite Hnone, Hinterval in Hi. by injection Hi.
  - intros Hnone. rewrite Hnone, Htimeout in Ht. by injection Ht.
  - intros Hnone. by rewrite Hport, Hnone.
  - rewrite Hprotocol. by destruct (HealthCheck.protocol hc).
  - intros Hnone. rewrite Hpath, Hnone. cbn. by destruct (HealthCheck.protocol hc).
Qed.

(** C8.  Where [cdk.Duration.seconds(5)] and [cdk.Duration.seconds(2)] are
    5000 and 2000 milliseconds: for the listeners of a call of
    [addListeners] that returns, each pushed record belongs to its listener
    and has defaults in the place of what the listener left out: port
    mapping 8080 with HTTP; in the health check, both thresholds 2, interval
    5000 ms, timeout 2000 ms, port and protocol those of the listener's port
    mapping, and path ['/'] when the protocol in effect (the health check's
    own, else the port mapping's) is HTTP, [undefined] when it is not. *)
Theorem addListeners_fills_defaults {Duration : Type} `{!CdkDuration Duration} validate
    (listeners : list (VirtualNodeListener.t Duration)) this this' :
  Duration_toMilliseconds (Duration_seconds 5) = Normal 5000 →
  Duration_toMilliseconds (Duration_seconds 2) = Normal 2000 →
  addListeners validate listeners this = (Normal (), this') →
  ∃ added,
    VirtualNode.listeners this' = VirtualNode.listeners this ++ added ∧
    Forall2 defaultsFilled listeners added.
Proof.
  intros Hinterval Htimeout Hrun.
  apply addListeners_normal in Hrun as (_ & _ & added & Hl & Hr & _).
  exists added. split; [done|].
  eapply Forall2_impl; [done|]. intros listener p. by apply rendered_defaultsFilled.
Qed.

Lemma addListeners_fills_defaults_witness :
  addListeners noValidation [checkedListener] VirtualNode.new =
  (Normal (),
   VirtualNode.mk []
     [CfnVirtualNode.mkListener (PortMapping.mk 8080 HTTP)
        (Some (CfnVirtualNode.mkHealthCheck 2 5000 (Some "/"%string) 8080 HTTP 2000 2))]
     []) ∧
  ∃ added,
    [CfnVirtualNode.mkListener (PortMapping.mk 8080 HTTP)
       (Some (CfnVirtualNode.mkHealthCheck 2 5000 (Some "/"%string) 8080 HTTP 2000 2))]
    = [] ++ added ∧
    Forall2 defaultsFilled [checkedListener] added.
Proof.
  split; [reflexivity|].
  apply (addListeners_fills_defaults noValidation [checkedListener] VirtualNode.new
           (VirtualNode.mk []
              [CfnVirtualNode.mkListener (PortMapping.mk 8080 HTTP)
                 (Some (CfnVirtualNode.mkHealthCheck 2 5000 (Some "/"%string)
                          8080 HTTP 2000 2))]
              [])).
  - reflexivity.
  - reflexivity.
  - reflexivity.
Defined.

(** The statement tells records apart: for a listener on a TCP port whose
    health check names HTTP, a record with the default port mapping is
    refused, and so is one without path. *)
Example defaultsFilled_tells_apart :
  let listener :=
    VirtualNodeListener.mk (Duration := SampleDuration.t) (Some (PortMapping.mk 9000 TCP))
      (Some (HealthCheck.mk None None None None (Some HTTP) None None)) in
  defaultsFilled listener
    (CfnVirtualNode.mkListener (PortMapping.mk 9000 TCP)
       (Some (CfnVirtualNode.mkHealthCheck 2 5000 (Some "/"%string) 9000 HTTP 2000 2))) ∧
  ¬ defaultsFilled listener
    (CfnVirtualNode.mkListener (PortMapping.mk 8080 HTTP)
       (Some (CfnVirtualNode.mkHealthCheck 2 5000 (Some "/"%string) 8080 HTTP 2000 2))) ∧
  ¬ defaultsFilled listener
    (CfnVirtualNode.mkListener (PortMapping.mk 9000 TCP)
       (Some (CfnVirtualNode.mkHealthCheck 2 5000 None 9000 HTTP 2000 2))).
Proof.
  split_and!.
  - split; [done|]. eexists. by split_and!.
  - intros [Hpm _]. discriminate Hpm.
  - intros [_ (r & [= <-] & _ & _ & _ & _ & _ & _ & Hpath)].
    by specialize (Hpath eq_refl).
Qed.

(** ** The protocol inherited from the port mapping *)




(** ** Backends *)

(** C5.  [addBackends] never throws; it appends one record per argument, in
    the order of the arguments, each carrying the [virtualServiceName] of its
    argument, and touches nothing else. *)
Theorem addBackends_appends props this :
  addBackends props this =
  (Normal (),
   VirtualNode.mk
     (VirtualNode.backends this
        ++ map (fun s =>
                  CfnVirtualNode.mkBackend
                    (CfnVirtualNode.mkVirtualServiceBackend
                       (IVirtualService.virtualServiceName s)))
             props)
     (VirtualNode.listeners this) (VirtualNode.backendDefaults this)).
Proof. apply addBackends_eq. Qed.

(** ** Backend defaults *)

(** C3.  On a node without backend defaults, [addBackendDefaults] returns
    and appends one record.  From then on, whatever else is called on the
    node, every call of [addBackendDefaults] throws 'Virtual Node can have
    only one backend default' and leaves the node as it is, and the array
    holds that one record.  The [backendDefaults] array of a node that exists
    never holds more than one element. *)
Theorem addBackendDefaults_only_once {Duration : Type} `{!CdkDuration Duration} validate :
  (∀ this backendDefaults,
     VirtualNode.backendDefaults this = [] →
     ∃ record,
       addBackendDefaults backendDefaults this =
       (Normal (),
        VirtualNode.mk (VirtualNode.backends this) (VirtualNode.listeners this) [record]) ∧
       ∀ this' backendDefaults',
         evolves validate (addBackendDefaults backendDefaults this).2 this' →
         addBackendDefaults backendDefaults' this' =
         (Throw (mkError "Virtual Node can have only one backend default"), this') ∧
         VirtualNode.backendDefaults this' = [record]) ∧
  (∀ this,
     reachable validate this → (length (VirtualNode.backendDefaults this) ≤ 1)%nat).
Proof.
  split.
  - intros this backendDefaults Hempty.
    destruct (addBackendDefaults_first backendDefaults this Hempty) as [record Hrun].
    exists record. split; [done|].
    intros this' backendDefaults' Hlater. rewrite Hrun in Hlater. cbn [snd] in Hlater.
    apply evolves_backendDefaults_kept in Hlater; [|done]. cbn in Hlater.
    split; [|done]. apply addBackendDefaults_again. by rewrite Hlater.
  - intros this Hreach. by apply reachable_at_most_one in Hreach as [_ ?].
Qed.

Lemma addBackendDefaults_only_once_witness :
  (addBackendDefaults fileDefaults VirtualNode.new).1 = Normal () ∧
  addBackendDefaults fileDefaults
    (addBackends [IVirtualService.mk "orders"]
       (addBackendDefaults fileDefaults VirtualNode.new).2).2 =
  (Throw (mkError "Virtual Node can have only one backend default"),
   (addBackends [IVirtualService.mk "orders"]
      (addBackendDefaults fileDefaults VirtualNode.new).2).2) ∧
  (length (VirtualNode.backendDefaults
             (addBackendDefaults fileDefaults VirtualNode.new).2) ≤ 1)%nat.
Proof.
  destruct (addBackendDefaults_only_once noValidation) as [Hfirst Hinv].
  destruct (Hfirst VirtualNode.new fileDefaults) as (record & Hrun & Hlater);
    [reflexivity|].
  split_and!.
  - rewrite Hrun. reflexivity.
  - apply (Hlater _ fileDefaults).
    apply (evolves_call noValidation _ _ (AddBackends [IVirtualService.mk "orders"])).
    apply evolves_refl.
  - apply Hinv.
    apply (evolves_call noValidation VirtualNode.new VirtualNode.new
             (AddBackendDefaults fileDefaults)).
    apply evolves_refl.
Defined.

(** ** Append-only arrays *)

(** C7.  Whatever is called on a node later, and however those calls end,
    each of the three arrays keeps what it holds as a prefix: nothing stored
    is changed, moved or dropped.  A call that returns has added its new
    elements at the end of its own array and has left the other two arrays
    as they were. *)
Theorem mutators_append_only {Duration : Type} `{!CdkDuration Duration} validate :
  (∀ this this',
     evolves validate this this' →
     VirtualNode.backends this `prefix_of` VirtualNode.backends this' ∧
     VirtualNode.listeners this `prefix_of` VirtualNode.listeners this' ∧
     VirtualNode.backendDefaults this `prefix_of` VirtualNode.backendDefaults this') ∧
  (∀ props this this',
     addBackends props this = (Normal (), this') →
     ∃ added,
       VirtualNode.backends this' = VirtualNode.backends this ++ added ∧
       VirtualNode.listeners this' = VirtualNode.listeners this ∧
       VirtualNode.backendDefaults this' = VirtualNode.backendDefaults this) ∧
  (∀ listeners this this',
     addListeners validate listeners this = (Normal (), this') →
     ∃ added,
       VirtualNode.listeners this' = VirtualNode.listeners this ++ added ∧
       VirtualNode.backends this' = VirtualNode.backends this ∧
       VirtualNode.backendDefaults this' = VirtualNode.backendDefaults this) ∧
  (∀ backendDefaults this this',
     addBackendDefaults backendDefaults this = (Normal (), this') →
     ∃ added,
       VirtualNode.backendDefaults this' = VirtualNode.backendDefaults this ++ added ∧
       VirtualNode.backends this' = VirtualNode.backends this ∧
       VirtualNode.listeners this' = VirtualNode.listeners this).
Proof.
  split_and!.
  - apply evolves_prefix.
  - intros props this this' Hrun. rewrite addBackends_eq in Hrun.
    injection Hrun as <-. by eexists.
  - intros listeners this this' Hrun.
    apply addListeners_normal in Hrun as (Hb & Hd & added & Hl & _). by exists added.
  - intros backendDefaults this this' Hrun.
    destruct (VirtualNode.backendDefaults this) as [|d ds] eqn:Hd.
    + destruct (addBackendDefaults_first backendDefaults this Hd) as [record Hfirst].
      rewrite Hfirst in Hrun. injection Hrun as <-. by exists [record].
    + rewrite addBackendDefaults_again in Hrun by by rewrite Hd. done.
Qed.

Lemma mutators_append_only_witness :
  VirtualNode.listeners oneListenerNode
    `prefix_of` VirtualNode.listeners
                  (addBackends [IVirtualService.mk "orders"] oneListenerNode).2 ∧
  (∃ added,
     VirtualNode.backends (addBackends [IVirtualService.mk "orders"] oneListenerNode).2 =
     VirtualNode.backends oneListenerNode ++ added) ∧
  (∃ added,
     VirtualNode.listeners (addListeners noValidation [plainListener] VirtualNode.new).2 =
     VirtualNode.listeners VirtualNode.new ++ added) ∧
  (∃ added,
     VirtualNode.backendDefaults (addBackendDefaults fileDefaults oneListenerNode).2 =
     VirtualNode.backendDefaults oneListenerNode ++ added).
Proof.
  destruct (mutators_append_only noValidation) as (Hlater & Hb & Hl & Hd).
  split_and!.
  - apply (Hlater oneListenerNode).
    apply (evolves_call noValidation _ _ (AddBackends [IVirtualService.mk "orders"])).
    apply evolves_refl.
  - destruct (Hb [IVirtualService.mk "orders"] oneListenerNode
                (addBackends [IVirtualService.mk "orders"] oneListenerNode).2)
      as (added & Hadded & _); [reflexivity|].
    exists added. exact Hadded.
  - destruct (Hl [plainListener] VirtualNode.new
                (addListeners noValidation [plainListener] VirtualNode.new).2)
      as (added & Hadded & _); [reflexivity|].
    exists added. exact Hadded.
  - destruct (Hd fileDefaults oneListenerNode
                (addBackendDefaults fileDefaults oneListenerNode).2)
      as (added & Hadded & _); [reflexivity|].
    exists added. exact Hadded.
Defined.

(** ** Trust policies *)

(** C4.  [TLSClientValidation.fileTrust(p).bind(scope)] is the validation
    config whose trust has the [file] entry with [p.certificateChain] and no
    [acm] entry; [TLSClientValidation.acmTrust(q).bind(scope)] is the one
    whose trust has the [acm] entry with [q.certificateAuthorityArns] and no
    [file] entry. *)
Theorem trust_factories {Scope : Type} (scope : Scope)
    (p : FileTrustOptions.t) (q : ACMTrustOptions.t) :
  TLSClientValidation.bind (TLSClientValidation.fileTrust p) scope =
  TLSValidationConfig.mk
    (CfnVirtualNode.mkTlsValidationContext
       (CfnVirtualNode.mkTrust None
          (Some (CfnVirtualNode.mkFileTrust (FileTrustOptions.certificateChain p))))) ∧
  TLSClientValidation.bind (TLSClientValidation.acmTrust q) scope =
  TLSValidationConfig.mk
    (CfnVirtualNode.mkTlsValidationContext
       (CfnVirtualNode.mkTrust
          (Some (CfnVirtualNode.mkAcmTrust (ACMTrustOptions.certificateAuthorityArns q)))
          None)).
Proof. split; reflexivity. Qed.

(** ** The client policy *)

(** C10.  For file trust options whose [certificateChain] is not empty,
    [ClientPolicy.fileTrust(props).bind(scope)] is a client policy whose
    trust has the one key [file], carrying the first element of the chain
    and nothing of the rest; its [enforce] is [enforceTls], and [true] when
    that is [undefined]; its [ports] is [props.ports].  For ACM trust
    options the trust has the one key [acm], carrying the whole list of
    certificate authority ARNs. *)
Theorem clientPolicy_trust {Scope : Type} (scope : Scope)
    (props : ClientPolicyTs.FileTrustOptions.t) (c : string) (rest : list string)
    (q : ClientPolicyTs.AcmTrustOptions.t) :
  ClientPolicyTs.FileTrustOptions.certificateChain props = c :: rest →
  let file :=
    ClientPolicyTs.tls
      (ClientPolicyTs.ClientPolicyConfig.clientPolicy
         (ClientPolicyTs.ClientPolicy.bind (ClientPolicyTs.ClientPolicy.fileTrust props) scope)) in
  let acm :=
    ClientPolicyTs.tls
      (ClientPolicyTs.ClientPolicyConfig.clientPolicy
         (ClientPolicyTs.ClientPolicy.bind (ClientPolicyTs.ClientPolicy.acmTrust q) scope)) in
  ClientPolicyTs.trust (ClientPolicyTs.tls_validation file) =
    {[ "file"%string := ClientPolicyTs.FileTrustValue (Some c) ]} ∧
  ClientPolicyTs.tls_enforce file =
    nullish (ClientPolicyTs.FileTrustOptions.enforceTls props) true ∧
  (ClientPolicyTs.FileTrustOptions.enforceTls props = None →
   ClientPolicyTs.tls_enforce file = true) ∧
  ClientPolicyTs.tls_ports file = ClientPolicyTs.FileTrustOptions.ports props ∧
  ClientPolicyTs.trust (ClientPolicyTs.tls_validation acm) =
    {[ "acm"%string :=
         ClientPolicyTs.AcmTrustValue
           (ClientPolicyTs.AcmTrustOptions.certificateAuthorityArns q) ]}.
Proof.
  intros Hchain file acm. subst file acm. cbn. rewrite Hchain.
  split_and!; try reflexivity. by intros ->.
Qed.

Lemma clientPolicy_trust_witness :
  ClientPolicyTs.trust
    (ClientPolicyTs.tls_validation
       (ClientPolicyTs.tls
          (ClientPolicyTs.ClientPolicyConfig.clientPolicy
             (ClientPolicyTs.ClientPolicy.bind
                (ClientPolicyTs.ClientPolicy.fileTrust
                   (ClientPolicyTs.FileTrustOptions.mk None (Some [443])
                      ["/certs/a.pem"; "/certs/b.pem"]%string))
                ()))))
  = {[ "file"%string := ClientPolicyTs.FileTrustValue (Some "/certs/a.pem"%string) ]}.
Proof.
  apply (clientPolicy_trust ()
           (ClientPolicyTs.FileTrustOptions.mk None (Some [443])
              ["/certs/a.pem"; "/certs/b.pem"]%string)
           "/certs/a.pem"%string ["/certs/b.pem"%string]
           (ClientPolicyTs.AcmTrustOptions.mk None None [])).
  reflexivity.
Defined.

(** * More of the code *)

(** ** More about method bodies *)

Lemma bind_scope_irrelevant {S1 S2 : Type} (v : TLSClientValidation.t) (s1 : S1) (s2 : S2) :
  TLSClientValidation.bind v s1 = TLSClientValidation.bind v s2.
Proof. by destruct v. Qed.

Lemma addBackendDefaults_eq backendDefaults this :
  addBackendDefaults backendDefaults this =
  match VirtualNode.backendDefaults this with
  | [] =>
      (Normal (),
       VirtualNode.mk (VirtualNode.backends this) (VirtualNode.listeners this)
         [backendDefaultsOf backendDefaults])
  | _ :: _ => (Throw (mkError "Virtual Node can have only one backend default"), this)
  end.
Proof.
  destruct (VirtualNode.backendDefaults this) as [|d ds] eqn:Hd.
  - unfold addBackendDefaults. rewrite M_bind_eq. cbn [getThis]. rewrite Hd.
    cbn [length]. rewrite bool_decide_eq_true_2 by done.
    unfold push_backendDefaults, backendDefaultsOf. rewrite Hd. cbn.
    by rewrite (bind_scope_irrelevant _ this ()).
  - apply addBackendDefaults_again. by rewrite Hd.
Qed.

(** What the loop of [addListeners] does depends on the [listeners] array
    alone, and the loop leaves the other two arrays alone. *)
Lemma forOf_addListeners_body_local {Duration : Type} `{!CdkDuration Duration}
    validate listeners b d b' d' l :
  forOf listeners (addListeners_body validate) (VirtualNode.mk b l d) =
  ((forOf listeners (addListeners_body validate) (VirtualNode.mk b' l d')).1,
   VirtualNode.mk b
     (VirtualNode.listeners
        (forOf listeners (addListeners_body validate) (VirtualNode.mk b' l d')).2) d).
Proof.
  revert l. induction listeners as [|x xs IH]; intros l.
  - cbn [forOf]. by rewrite !M_ret_eq.
  - cbn [forOf]. rewrite !M_bind_eq, !addListeners_body_eq.
    destruct (renderHealthCheck validate _ _) as [h|e]; [|done].
    cbn [VirtualNode.backends VirtualNode.listeners VirtualNode.backendDefaults].
    apply IH.
Qed.

Lemma addListeners_local {Duration : Type} `{!CdkDuration Duration} validate listeners b d b' d' l :
  addListeners validate listeners (VirtualNode.mk b l d) =
  ((addListeners validate listeners (VirtualNode.mk b' l d')).1,
   VirtualNode.mk b
     (VirtualNode.listeners (addListeners validate listeners (VirtualNode.mk b' l d')).2) d).
Proof.
  unfold addListeners. rewrite !M_bind_eq. cbn [getThis VirtualNode.listeners].
  case_bool_decide; [done|]. apply forOf_addListeners_body_local.
Qed.

Lemma addListeners_frame {Duration : Type} `{!CdkDuration Duration} validate listeners this :
  VirtualNode.backends (addListeners validate listeners this).2 = VirtualNode.backends this ∧
  VirtualNode.backendDefaults (addListeners validate listeners this).2
  = VirtualNode.backendDefaults this.
Proof.
  destruct (addListeners validate listeners this) as [[[]|e] this'] eqn:Hrun; cbn [snd].
  - by apply addListeners_normal in Hrun as (? & ? & _).
  - by apply addListeners_throw_unchanged in Hrun as ->.
Qed.

(** ** The constructor *)

(** X1.  Lines 410 to 414 of the constructor, the calls by which it fills
    the arrays of the new node, with backend defaults whose validation comes
    from [TLSClientValidation.fileTrust] or [acmTrust]: these calls never
    trip over a cardinality guard.  They throw exactly when rendering the
    health check of [props.listener] throws, with that error; otherwise they
    return, and the three arrays are: one backend per element of
    [props.backends], the one rendered listener if [props.listener] is given,
    the one backend-defaults record if [props.backendDefaults] is given. *)
Theorem constructor_fill_outcome {Duration : Type} `{!CdkDuration Duration} validate
    (props : VirtualNodeProps.t Duration) :
  constructor_fill validate props VirtualNode.new =
  let backends := map backendOf (nullish (VirtualNodeProps.backends props) []) in
  let backendDefaults :=
    match VirtualNodeProps.backendDefaults props with
    | Some backendDefaults => [backendDefaultsOf backendDefaults]
    | None => []
    end in
  match VirtualNodeProps.listener props with
  | None => (Normal (), VirtualNode.mk backends [] backendDefaults)
  | Some listener =>
      match renderHealthCheck validate (VirtualNodeListener.healthCheck listener)
              (portMappingOf listener) with
      | Normal healthCheck =>
          (Normal (),
           VirtualNode.mk backends
             [CfnVirtualNode.mkListener (portMappingOf listener) healthCheck]
             backendDefaults)
      | Throw e => (Throw e, VirtualNode.mk backends [] [])
      end
  end.
Proof.
  unfold constructor_fill. rewrite M_bind_eq, addBackends_eq.
  cbn [VirtualNode.new VirtualNode.backends VirtualNode.listeners
       VirtualNode.backendDefaults app].
  replace (or_else (VirtualNodeProps.backends props) [])
    with (nullish (VirtualNodeProps.backends props) [])
    by by destruct (VirtualNodeProps.backends props).
  rewrite M_bind_eq.
  destruct (VirtualNodeProps.listener props) as [listener|].
  - rewrite addListeners_room by (cbn; lia).
    cbn [forOf]. rewrite M_bind_eq, addListeners_body_eq.
    destruct (renderHealthCheck validate _ _) as [h|e]; [|done].
    rewrite M_ret_eq. cbn [VirtualNode.backends VirtualNode.listeners
                           VirtualNode.backendDefaults app].
    destruct (VirtualNodeProps.backendDefaults props) as [bd|]; [|done].
    by rewrite addBackendDefaults_eq.
  - rewrite addListeners_room by (cbn; lia).
    cbn [forOf]. rewrite M_ret_eq.
    destruct (VirtualNodeProps.backendDefaults props) as [bd|]; [|done].
    by rewrite addBackendDefaults_eq.
Qed.

(** ** Once a listener is there *)

(** X2.  Once a node holds a listener, whatever is called on it afterwards,
    every call of [addListeners] with at least one listener throws
    'VirtualNode may have at most one listener' and changes nothing. *)
Theorem listener_is_final {Duration : Type} `{!CdkDuration Duration} validate this this' listeners :
  VirtualNode.listeners this ≠ [] →
  evolves validate this this' →
  listeners ≠ [] →
  addListeners validate listeners this' =
  (Throw (mkError "VirtualNode may have at most one listener"), this').
Proof.
  intros Hne Hlater Hls. apply addListeners_guard.
  apply evolves_prefix in Hlater as (_ & [k Hk] & _). rewrite Hk, length_app.
  destruct (VirtualNode.listeners this); [done|].
  destruct listeners; [done|]. cbn. lia.
Qed.

Lemma listener_is_final_witness :
  addListeners noValidation [checkedListener]
    (addBackends [IVirtualService.mk "orders"] oneListenerNode).2 =
  (Throw (mkError "VirtualNode may have at most one listener"),
   (addBackends [IVirtualService.mk "orders"] oneListenerNode).2).
Proof.
  apply (listener_is_final noValidation oneListenerNode).
  - discriminate.
  - apply (evolves_call noValidation _ _ (AddBackends [IVirtualService.mk "orders"])).
    apply evolves_refl.
  - discriminate.
Defined.

(** ** Batches and empty calls *)

(** X3.  One call of [addBackends] with the arguments [xs] followed by [ys]
    leaves the node that a call with [xs] and then a call with [ys] leave. *)
Theorem addBackends_app xs ys this :
  addBackends (xs ++ ys) this = addBackends ys (addBackends xs this).2.
Proof.
  rewrite !addBackends_eq. cbn [snd VirtualNode.backends VirtualNode.listeners
                                VirtualNode.backendDefaults].
  by rewrite map_app, app_assoc.
Qed.

(** X4.  On a node that exists, [addBackends()] and [addListeners()] without
    arguments return and leave the node as it is. *)
Theorem empty_calls_change_nothing {Duration : Type} `{!CdkDuration Duration} validate this :
  reachable validate this →
  addBackends [] this = (Normal (), this) ∧
  addListeners validate [] this = (Normal (), this).
Proof.
  intros Hreach. split.
  - rewrite addBackends_eq. cbn. by rewrite app_nil_r, VirtualNode_eta.
  - apply reachable_at_most_one in Hreach as [Hlen _].
    rewrite addListeners_room by (cbn; lia). done.
Qed.

Lemma empty_calls_change_nothing_witness :
  addBackends [] oneListenerNode = (Normal (), oneListenerNode) ∧
  addListeners noValidation [] oneListenerNode = (Normal (), oneListenerNode).
Proof.
  apply (empty_calls_change_nothing noValidation oneListenerNode).
  apply (evolves_call noValidation VirtualNode.new VirtualNode.new
           (AddListeners [plainListener])).
  apply evolves_refl.
Defined.

(** ** Calls on different arrays *)

(** X5.  Two calls that work on different arrays do not see each other:
    how the second ends does not depend on the first having run, and the
    node after both is the same in either order. *)
Theorem calls_on_different_arrays_commute {Duration : Type} `{!CdkDuration Duration}
    validate a b this :
  arrayOf a ≠ arrayOf b →
  (call validate b (call validate a this).2).1 = (call validate b this).1 ∧
  (call validate b (call validate a this).2).2
  = (call validate a (call validate b this).2).2.
Proof.
  intros Hdiff. destruct this as [b0 l0 d0].
  pose proof (addListeners_frame validate) as Hframe.
  destruct a as [props|ls|bd], b as [props'|ls'|bd']; try done; cbn [call].
  - rewrite !addBackends_eq. cbn [snd VirtualNode.backends VirtualNode.listeners
                                  VirtualNode.backendDefaults].
    rewrite (addListeners_local validate ls' (b0 ++ map backendOf props) d0 b0 d0 l0).
    cbn [fst snd].
    destruct (Hframe ls' (VirtualNode.mk b0 l0 d0)) as [-> ->]. done.
  - rewrite !addBackends_eq, !addBackendDefaults_eq.
    cbn [snd VirtualNode.backends VirtualNode.listeners VirtualNode.backendDefaults].
    by destruct d0.
  - rewrite !addBackends_eq. cbn [fst snd VirtualNode.backends VirtualNode.listeners
                                  VirtualNode.backendDefaults].
    destruct (Hframe ls (VirtualNode.mk b0 l0 d0)) as [-> ->].
    rewrite (addListeners_local validate ls (b0 ++ map backendOf props') d0 b0 d0 l0).
    done.
  - rewrite !addBackendDefaults_eq.
    destruct (Hframe ls (VirtualNode.mk b0 l0 d0)) as [Hb Hd]. cbn in Hb, Hd.
    rewrite Hd. cbn [VirtualNode.backends VirtualNode.listeners
                     VirtualNode.backendDefaults].
    destruct d0 as [|x xs]; cbn [fst snd].
    + rewrite Hb.
      rewrite (addListeners_local validate ls b0 [backendDefaultsOf bd'] b0 [] l0). done.
    + split; [done|].
      destruct (addListeners validate ls _) as [c [b1 l1 d1]]. cbn in *. by subst.
  - rewrite !addBackendDefaults_eq, !addBackends_eq.
    cbn [snd VirtualNode.backends VirtualNode.listeners VirtualNode.backendDefaults].
    by destruct d0.
  - rewrite !addBackendDefaults_eq.
    destruct (Hframe ls' (VirtualNode.mk b0 l0 d0)) as [Hb Hd]. cbn in Hb, Hd.
    rewrite Hd. cbn [VirtualNode.backends VirtualNode.listeners
                     VirtualNode.backendDefaults].
    destruct d0 as [|x xs]; cbn [fst snd].
    + rewrite Hb.
      rewrite (addListeners_local validate ls' b0 [backendDefaultsOf bd] b0 [] l0). done.
    + split; [done|].
      destruct (addListeners validate ls' _) as [c [b1 l1 d1]]. cbn in *. by subst.
Qed.

Lemma calls_on_different_arrays_commute_witness :
  (call noValidation (AddListeners [tcpPingListener])
     (call noValidation (AddBackends [IVirtualService.mk "orders"]) VirtualNode.new).2).1
  = (call noValidation (AddListeners [tcpPingListener]) VirtualNode.new).1 ∧
  (call noValidation (AddListeners [tcpPingListener])
     (call noValidation (AddBackends [IVirtualService.mk "orders"]) VirtualNode.new).2).2
  = (call noValidation (AddBackends [IVirtualService.mk "orders"])
       (call noValidation (AddListeners [tcpPingListener]) VirtualNode.new).2).2.
Proof.
  apply (calls_on_different_arrays_commute noValidation
           (AddBackends [IVirtualService.mk "orders"])
           (AddListeners [tcpPingListener]) VirtualNode.new).
  discriminate.
Defined.

(** ** More about health checks *)

Lemma truthy_opt_keepTruthy {A} `{Truthy A} (x : option A) :
  truthy_opt (keepTruthy x) = truthy_opt x.
Proof. destruct x as [v|]; [|done]. cbn. by destruct (truthy v) eqn:Hv; cbn; rewrite ?Hv. Qed.

Lemma or_else_keepTruthy {A} `{Truthy A} (x : option A) (d : A) :
  or_else (keepTruthy x) d = or_else x d.
Proof. destruct x as [v|]; [|done]. cbn. by destruct (truthy v) eqn:Hv; cbn; rewrite ?Hv. Qed.

Lemma or_undef_keepTruthy {A} `{Truthy A} (x y : option A) :
  or_undef (keepTruthy x) y = or_undef x y.
Proof. destruct x as [v|]; [|done]. cbn. by destruct (truthy v) eqn:Hv; cbn; rewrite ?Hv. Qed.

(** X6.  A threshold or a port that is [0] and a path that is [''] count as
    left out: the health check renders, or fails to render, exactly as the
    health check without them does. *)
Theorem renderHealthCheck_falsy_as_omitted {Duration : Type} `{!CdkDuration Duration}
    validate hc pm :
  renderHealthCheck validate (Some hc) pm =
  renderHealthCheck validate (Some (dropFalsy hc)) pm.
Proof.
  unfold renderHealthCheck, renderHealthCheck_healthCheck, dropFalsy.
  cbn [HealthCheck.healthyThreshold HealthCheck.interval HealthCheck.path
       HealthCheck.port HealthCheck.protocol HealthCheck.timeout
       HealthCheck.unhealthyThreshold].
  by rewrite truthy_opt_keepTruthy, !or_else_keepTruthy, or_undef_keepTruthy.
Qed.

Lemma or_else_Z_nonzero (x : option Z) (d : Z) : d ≠ 0 → or_else x d ≠ 0.
Proof.
  intros Hd. destruct x as [v|]; [|done]. cbn. unfold truthy, Z_truthy.
  destruct (v =? 0) eqn:Hv; cbn; [done|]. by apply Z.eqb_neq.
Qed.

Lemma renderHealthCheck_sound {Duration : Type} `{!CdkDuration Duration} validate
    (hc : option (HealthCheck.t Duration)) pm r :
  renderHealthCheck validate hc pm = Normal (Some r) → soundHealthCheck validate r.
Proof.
  destruct hc as [hc|]; [|done]. intros Hr.
  apply renderHealthCheck_Normal in Hr as (Hr & Hv & _).
  apply renderHealthCheck_healthCheck_Normal in Hr
    as (_ & _ & Hhealthy & Hunhealthy & _ & Hprotocol & Hpath).
  split; [done|]. rewrite Hhealthy, Hunhealthy, Hprotocol, Hpath.
  split_and!.
  - by apply or_else_Z_nonzero.
  - by apply or_else_Z_nonzero.
  - destruct (HealthCheck.path hc) as [[|a p]|]; cbn; try done; by case_bool_decide.
  - intros ->. rewrite bool_decide_eq_true_2 by done.
    by destruct (HealthCheck.path hc) as [[|a p]|].
Qed.

(** X7.  Every health-check record that sits in a node that exists was
    accepted by [validateHealthChecks], has thresholds that are not [0], has
    a path that is not the empty string, and has a path whenever its protocol
    is HTTP. *)
Theorem stored_health_checks_sound {Duration : Type} `{!CdkDuration Duration} validate this :
  reachable validate this →
  Forall (fun p => ∀ r, CfnVirtualNode.healthCheck p = Some r → soundHealthCheck validate r)
    (VirtualNode.listeners this).
Proof.
  induction 1 as [|this' c _ IH]; [by constructor|].
  destruct c as [props|listeners|backendDefaults]; cbn [call].
  - by rewrite addBackends_eq.
  - destruct (addListeners validate listeners this') as [[[]|e] this''] eqn:Hrun; cbn [snd].
    + apply addListeners_normal in Hrun as (_ & _ & added & -> & Hr & _).
      apply Forall_app. split; [done|].
      clear -Hr. induction Hr as [|l p ls ps [_ Hp] _ IH]; constructor; [|done].
      intros r Hsome. rewrite Hsome in Hp. by eapply renderHealthCheck_sound.
    + by apply addListeners_throw_unchanged in Hrun as ->.
  - rewrite addBackendDefaults_eq. by destruct (VirtualNode.backendDefaults this').
Qed.

Lemma stored_health_checks_sound_witness :
  Forall (fun p => ∀ r, CfnVirtualNode.healthCheck p = Some r → soundHealthCheck noValidation r)
    (VirtualNode.listeners (addListeners noValidation [checkedListener] VirtualNode.new).2).
Proof.
  apply (stored_health_checks_sound noValidation).
  apply (evolves_call noValidation VirtualNode.new VirtualNode.new
           (AddListeners [checkedListener])).
  apply evolves_refl.
Defined.

(** X8.  A health check that names TCP or GRPC as its protocol is rendered,
    when it is rendered, to a record without path. *)
Theorem explicit_tcp_grpc_record_has_no_path {Duration : Type} `{!CdkDuration Duration}
    validate (hc : HealthCheck.t Duration) pm r :
  renderHealthCheck validate (Some hc) pm = Normal (Some r) →
  HealthCheck.protocol hc = Some TCP ∨ HealthCheck.protocol hc = Some GRPC →
  CfnVirtualNode.path r = None.
Proof.
  intros Hr Hproto. apply renderHealthCheck_Normal in Hr as (Hr & _ & Htcp & Hgrpc).
  apply renderHealthCheck_healthCheck_Normal in Hr as (_ & _ & _ & _ & _ & _ & ->).
  destruct Hproto as [Hp|Hp]; rewrite Hp in *; cbn in *.
  - rewrite bool_decide_eq_true_2 in Htcp by done. cbn in Htcp.
    by destruct (HealthCheck.path hc) as [[|a p]|].
  - rewrite bool_decide_eq_true_2 in Hgrpc by done. cbn in Hgrpc.
    by destruct (HealthCheck.path hc) as [[|a p]|].
Qed.

Lemma explicit_tcp_grpc_record_has_no_path_witness :
  renderHealthCheck noValidation (Some tcpEmptyPath) (PortMapping.mk 8080 HTTP) =
  Normal (Some (CfnVirtualNode.mkHealthCheck 2 5000 None 8080 TCP 2000 2)) ∧
  CfnVirtualNode.path (CfnVirtualNode.mkHealthCheck 2 5000 None 8080 TCP 2000 2) = None.
Proof.
  split; [reflexivity|].
  apply (explicit_tcp_grpc_record_has_no_path noValidation tcpEmptyPath
           (PortMapping.mk 8080 HTTP)).
  - reflexivity.
  - left. reflexivity.
Defined.

(** X9.  The errors of [addListeners] are of these kinds and no other: the
    cardinality error, when stored and passed listeners are more than one;
    else one of the two path errors, when the one passed listener has a
    health check with a non-empty path and the protocol TCP, or GRPC; else
    the error that converting the health check's interval (5 seconds when it
    has none) to milliseconds throws; else the error that converting its
    timeout (2 seconds when it has none) throws; else the error that
    [validateHealthChecks] throws on the rendered record.  A listener without
    health check is never the cause of an error. *)
Theorem addListeners_errors {Duration : Type} `{!CdkDuration Duration} validate
    (listeners : list (VirtualNodeListener.t Duration)) this e this' :
  addListeners validate listeners this = (Throw e, this') →
  ((1 < length (VirtualNode.listeners this) + length listeners)%nat ∧
   e = mkError "VirtualNode may have at most one listener") ∨
  ∃ listener hc,
    listeners = [listener] ∧ VirtualNode.listeners this = [] ∧
    VirtualNodeListener.healthCheck listener = Some hc ∧
    ((pathWithProtocol hc TCP ∧
      e = mkError "The path property cannot be set with Protocol.TCP") ∨
     (pathWithProtocol hc GRPC ∧
      e = mkError "The path property cannot be set with Protocol.GRPC") ∨
     (¬ pathWithProtocol hc TCP ∧ ¬ pathWithProtocol hc GRPC ∧
      let interval :=
        match HealthCheck.interval hc with
        | Some interval => interval
        | None => Duration_seconds 5
        end in
      let timeout :=
        match HealthCheck.timeout hc with
        | Some timeout => timeout
        | None => Duration_seconds 2
        end in
      (Duration_toMilliseconds interval = Throw e ∨
       (throws (Duration_toMilliseconds interval) = false ∧
        Duration_toMilliseconds timeout = Throw e) ∨
       ∃ r, renderHealthCheck_healthCheck hc (portMappingOf listener) = Normal r ∧
            validate r = Throw e))).
Proof.
  intros Hrun.
  destruct (decide (1 < length (VirtualNode.listeners this) + length listeners)%nat)
    as [Hlen|Hlen].
  - left. rewrite addListeners_guard in Hrun by done. by simplify_eq.
  - right. rewrite addListeners_room in Hrun by lia.
    destruct listeners as [|l [|l' ls]]; [done| |cbn in Hlen; lia].
    cbn [forOf] in Hrun. rewrite M_bind_eq, addListeners_body_eq in Hrun.
    destruct (VirtualNodeListener.healthCheck l) as [hc|] eqn:Hhc; [|done].
    exists l, hc. split_and!; [done| |done|].
    { destruct (VirtualNode.listeners this); [done|cbn in Hlen; lia]. }
    destruct (renderHealthCheck validate (Some hc) (portMappingOf l)) as [h|e'] eqn:Hr;
      [done|].
    injection Hrun as -> _. unfold renderHealthCheck in Hr.
    destruct (bool_decide _ && _) eqn:Htcp.
    { left. apply truthy_path_pathWithProtocol in Htcp. by simplify_eq. }
    destruct (bool_decide (_ = Some GRPC) && _) eqn:Hgrpc.
    { right; left. apply truthy_path_pathWithProtocol in Hgrpc. by simplify_eq. }
    right; right. split_and!.
    + rewrite <- truthy_path_pathWithProtocol. congruence.
    + rewrite <- truthy_path_pathWithProtocol. congruence.
    + cbv zeta. rewrite Completion_bind_eq in Hr.
      destruct (renderHealthCheck_healthCheck hc (portMappingOf l)) as [r|e'] eqn:Hlit.
      * right; right. exists r. split; [done|].
        rewrite Completion_bind_eq in Hr. destruct (validate r); by simplify_eq.
      * injection Hr as ->. clear -Hlit.
        unfold renderHealthCheck_healthCheck in Hlit. rewrite Completion_bind_eq in Hlit.
        replace (or_else (HealthCheck.interval hc) (Duration_seconds 5))
          with (match HealthCheck.interval hc with
                | Some d => d | None => Duration_seconds 5 end) in Hlit
          by by destruct (HealthCheck.interval hc).
        replace (or_else (HealthCheck.timeout hc) (Duration_seconds 2))
          with (match HealthCheck.timeout hc with
                | Some d => d | None => Duration_seconds 2 end) in Hlit
          by by destruct (HealthCheck.timeout hc).
        destruct (Duration_toMilliseconds
                    (match HealthCheck.interval hc with Some d => d | None => _ end))
          as [intervalMillis|e']; [|left; by simplify_eq].
        right; left. split; [done|].
        rewrite Completion_bind_eq in Hlit.
        destruct (Duration_toMilliseconds
                    (match HealthCheck.timeout hc with Some d => d | None => _ end))
          as [timeoutMillis|e']; by simplify_eq.
Qed.

Lemma addListeners_errors_witness :
  let e := mkError "'5.0005 seconds' cannot be converted into a whole number of millis." in
  addListeners noValidation [VirtualNodeListener.mk None (Some oddInterval)] VirtualNode.new =
  (Throw e, VirtualNode.new) ∧
  (((1 < length (VirtualNode.listeners VirtualNode.new)
         + length [VirtualNodeListener.mk None (Some oddInterval)])%nat ∧
    e = mkError "VirtualNode may have at most one listener") ∨
   ∃ listener hc,
     [VirtualNodeListener.mk None (Some oddInterval)] = [listener] ∧
     VirtualNode.listeners VirtualNode.new = [] ∧
     VirtualNodeListener.healthCheck listener = Some hc ∧
     ((pathWithProtocol hc TCP ∧
       e = mkError "The path property cannot be set with Protocol.TCP") ∨
      (pathWithProtocol hc GRPC ∧
       e = mkError "The path property cannot be set with Protocol.GRPC") ∨
      (¬ pathWithProtocol hc TCP ∧ ¬ pathWithProtocol hc GRPC ∧
       let interval :=
         match HealthCheck.interval hc with
         | Some interval => interval
         | None => Duration_seconds 5
         end in
       let timeout :=
         match HealthCheck.timeout hc with
         | Some timeout => timeout
         | None => Duration_seconds 2
         end in
       (Duration_toMilliseconds interval = Throw e ∨
        (throws (Duration_toMilliseconds interval) = false ∧
         Duration_toMilliseconds timeout = Throw e) ∨
        ∃ r, renderHealthCheck_healthCheck hc (portMappingOf listener) = Normal r ∧
             noValidation r = Throw e)))).
Proof.
  intros e. split; [reflexivity|].
  apply (addListeners_errors noValidation
           [VirtualNodeListener.mk None (Some oddInterval)] VirtualNode.new e
           VirtualNode.new).
  reflexivity.
Defined.

(** ** Stored backend defaults *)

(** X10.  What [addBackendDefaults] stores, on a node without backend
    defaults, for a validation that comes from one of the two factories:
    [enforce] is the given one, [false] included, and [true] when none is
    given; the ports are the given ones; the trust is the one of the factory,
    [file] with the certificate chain and no [acm] for
    [TLSClientValidation.fileTrust], [acm] with the ARNs and no [file] for
    [TLSClientValidation.acmTrust]. *)
Theorem addBackendDefaults_stores this enforce ports
    (p : FileTrustOptions.t) (q : ACMTrustOptions.t) :
  VirtualNode.backendDefaults this = [] →
  let stored validation trust :=
    addBackendDefaults
      (BackendDefaults.mk (TLSClientPolicyOptions.mk enforce ports validation)) this =
    (Normal (),
     VirtualNode.mk (VirtualNode.backends this) (VirtualNode.listeners this)
       [CfnVirtualNode.mkBackendDefaults
          (CfnVirtualNode.mkClientPolicy
             (CfnVirtualNode.mkClientPolicyTls
                (match enforce with Some enforce => enforce | None => true end)
                (CfnVirtualNode.mkTlsValidationContext trust)
                ports))]) in
  stored (TLSClientValidation.fileTrust p)
    (CfnVirtualNode.mkTrust None
       (Some (CfnVirtualNode.mkFileTrust (FileTrustOptions.certificateChain p)))) ∧
  stored (TLSClientValidation.acmTrust q)
    (CfnVirtualNode.mkTrust
       (Some (CfnVirtualNode.mkAcmTrust (ACMTrustOptions.certificateAuthorityArns q)))
       None).
Proof.
  intros Hempty stored. subst stored. cbv beta.
  rewrite !addBackendDefaults_eq, Hempty. by destruct enforce.
Qed.

Lemma addBackendDefaults_stores_witness :
  addBackendDefaults
    (BackendDefaults.mk
       (TLSClientPolicyOptions.mk (Some false) (Some [443; 8443])
          (TLSClientValidation.acmTrust (ACMTrustOptions.mk ["arn:aws:acm-pca:ca/1"%string]))))
    oneListenerNode =
  (Normal (),
   VirtualNode.mk [] [CfnVirtualNode.mkListener (PortMapping.mk 8080 HTTP) None]
     [CfnVirtualNode.mkBackendDefaults
        (CfnVirtualNode.mkClientPolicy
           (CfnVirtualNode.mkClientPolicyTls false
              (CfnVirtualNode.mkTlsValidationContext
                 (CfnVirtualNode.mkTrust
                    (Some (CfnVirtualNode.mkAcmTrust ["arn:aws:acm-pca:ca/1"%string]))
                    None))
              (Some [443; 8443])))]).
Proof.
  apply (addBackendDefaults_stores oneListenerNode (Some false) (Some [443; 8443])
           (FileTrustOptions.mk "/certs/chain.pem")
           (ACMTrustOptions.mk ["arn:aws:acm-pca:ca/1"%string])).
  reflexivity.
Defined.

(** ** The two ways to a client policy *)

(** X11.  The client-policy file and virtual-node.ts build the same TLS
    client policy from the same options: [ClientPolicy.fileTrust] with a
    chain that starts with [c] agrees with the record that
    [addBackendDefaults] stores for [TLSClientValidation.fileTrust] with the
    chain [c], and [ClientPolicy.acmTrust] agrees with the record stored for
    [TLSClientValidation.acmTrust] with the same ARNs. *)
Theorem clientPolicy_agrees_with_backendDefaults
    (enforce : option bool) (ports : option (list Z))
    (c : string) (rest arns : list string) :
  (∃ d,
     addBackendDefaults
       (BackendDefaults.mk
          (TLSClientPolicyOptions.mk enforce ports
             (TLSClientValidation.fileTrust (FileTrustOptions.mk c))))
       VirtualNode.new = (Normal (), VirtualNode.mk [] [] [d]) ∧
     samePolicy
       (ClientPolicyTs.ClientPolicy.bind
          (ClientPolicyTs.ClientPolicy.fileTrust
             (ClientPolicyTs.FileTrustOptions.mk enforce ports (c :: rest))) ())
       d) ∧
  (∃ d,
     addBackendDefaults
       (BackendDefaults.mk
          (TLSClientPolicyOptions.mk enforce ports
             (TLSClientValidation.acmTrust (ACMTrustOptions.mk arns))))
       VirtualNode.new = (Normal (), VirtualNode.mk [] [] [d]) ∧
     samePolicy
       (ClientPolicyTs.ClientPolicy.bind
          (ClientPolicyTs.ClientPolicy.acmTrust
             (ClientPolicyTs.AcmTrustOptions.mk enforce ports arns)) ())
       d).
Proof.
  split; eexists; (split; [by rewrite addBackendDefaults_eq|]);
    unfold samePolicy, sameTrust; cbn -[lookup singletonM];
    (split_and!; try done); intros k Hfile Hacm; by rewrite lookup_singleton_ne.
Qed.

(** ** The client policy at its edges *)

(** X12.  [ClientPolicy.fileTrust] does not refuse an empty
    [certificateChain]: the policy has the one key [file] with a
    [certificateChain] that is [undefined].  An [enforceTls] that is given,
    [false] included, is kept as it is, and the ports are copied. *)
Theorem clientPolicy_fileTrust_empty_chain {Scope : Type} (scope : Scope)
    (props : ClientPolicyTs.FileTrustOptions.t) :
  ClientPolicyTs.FileTrustOptions.certificateChain props = [] →
  let policy :=
    ClientPolicyTs.tls
      (ClientPolicyTs.ClientPolicyConfig.clientPolicy
         (ClientPolicyTs.ClientPolicy.bind (ClientPolicyTs.ClientPolicy.fileTrust props) scope)) in
  ClientPolicyTs.trust (ClientPolicyTs.tls_validation policy) =
    {[ "file"%string := ClientPolicyTs.FileTrustValue None ]} ∧
  (∀ b, ClientPolicyTs.FileTrustOptions.enforceTls props = Some b →
        ClientPolicyTs.tls_enforce policy = b) ∧
  ClientPolicyTs.tls_ports policy = ClientPolicyTs.FileTrustOptions.ports props.
Proof.
  intros Hchain policy. subst policy. cbn. rewrite Hchain.
  split_and!; try done. by intros b ->.
Qed.

Lemma clientPolicy_fileTrust_empty_chain_witness :
  ClientPolicyTs.trust
    (ClientPolicyTs.tls_validation
       (ClientPolicyTs.tls
          (ClientPolicyTs.ClientPolicyConfig.clientPolicy
             (ClientPolicyTs.ClientPolicy.bind
                (ClientPolicyTs.ClientPolicy.fileTrust
                   (ClientPolicyTs.FileTrustOptions.mk (Some false) None [])) ()))))
  = {[ "file"%string := ClientPolicyTs.FileTrustValue None ]}.
Proof.
  apply (clientPolicy_fileTrust_empty_chain ()
           (ClientPolicyTs.FileTrustOptions.mk (Some false) None [])).
  reflexivity.
Defined.

(** ** [renderAttributes] *)

(** X13.  [renderAttributes] loses nothing and adds nothing: reading key and
    value back off its result gives the entries of its argument, in their
    order, and [undefined] for [undefined].  An object without properties
    gives an empty array, not [undefined]. *)
Theorem renderAttributes_round_trip attrs :
  map (fun a => (AwsCloudMapInstanceAttribute.key a, AwsCloudMapInstanceAttribute.value a))
    <$> renderAttributes attrs = attrs ∧
  (renderAttributes attrs = None ↔ attrs = None) ∧
  (renderAttributes attrs = Some [] ↔ attrs = Some []).
Proof.
  destruct attrs as [entries|]; cbn; [|by split_and!].
  split_and!.
  - f_equal. induction entries as [|[k v] entries IH]; [done|]. cbn. by rewrite IH.
  - done.
  - split; intros [= H]; f_equal; [|by rewrite H].
    by destruct entries.
Qed.
